(** * Picomotor 8742 driver: the command protocol layer of [picomotor.py]

    A shallow embedding of the [Controller] class: command formatting and
    validation, reply parsing, the protocol operations, and the two
    polling loops; followed by the properties of the design document
    that are settled on it. *)

From Stdlib Require Import ZArith Ascii String List Lia DecimalString DecimalPos.
From stdpp Require Import base option list strings gmap.

Local Open Scope string_scope.
Local Open Scope Z_scope.

(** ** Python values and exceptions *)

(** The arguments of the driver's methods are dynamically typed; the
    checks [type(v) == int], [if axis:] and [val is not None] depend on
    the class of the value.  The universe below has the classes the
    driver's callers pass ([None], [bool], [int], [str]); [float] is left
    out. *)
Inductive value : Type :=
  | VNone
  | VBool (b : bool)
  | VInt (z : Z)
  | VStr (s : string).

(** Exceptions raised by the driver ([ValueError]), by the interpreter
    on its behalf ([KeyError] from a dict subscript, [IndexError] from
    [reply[-1]], [ValueError] from [int()]) and by the USB endpoint.
    The message of an interpreter-raised error is abbreviated. *)
Inductive exn : Type :=
  | ValueError (msg : string)
  | KeyError (key : string)
  | IndexError (msg : string)
  | TypeError (msg : string)
  | USBError (msg : string).

Module Py.

(** [str(z)] for an [int]: the decimal numeral, with a minus sign. *)
Definition str_int (z : Z) : string := NilZero.string_of_int (Z.to_int z).

(** [str(v)], which is what an f-string field [{v}] inserts. *)
Definition str (v : value) : string :=
  match v with
  | VNone => "None"
  | VBool true => "True"
  | VBool false => "False"
  | VInt z => str_int z
  | VStr s => s
  end.

(** Truth value, as tested by [if axis:]. *)
Definition truthy (v : value) : bool :=
  match v with
  | VNone => false
  | VBool b => b
  | VInt z => negb (z =? 0)
  | VStr s => negb (String.eqb s "")
  end.

(** [type(v) == int]: exact class, so [True] and [False] do not pass. *)
Definition type_is_int (v : value) : bool :=
  match v with VInt _ => true | _ => false end.

(** [v == n] for an [int] literal [n]; [True == 1] and [False == 0]
    hold in Python. *)
Definition eq_int (v : value) (n : Z) : bool :=
  match v with
  | VInt z => z =? n
  | VBool b => Z.b2z b =? n
  | _ => false
  end.

(** [v == s] for a [str] literal [s]. *)
Definition eq_str (v : value) (s : string) : bool :=
  match v with VStr t => String.eqb t s | _ => false end.

(** A comparison chain such as [1 <= v <= 4] on a value for which
    [type(v) == int] held just before. *)
Definition int_test (v : value) (p : Z -> bool) : bool :=
  match v with VInt z => p z | _ => false end.

(** Code points below 256 for which [str.isspace] holds; these are the
    characters [str.rstrip()] removes. *)
Definition isspace (c : ascii) : bool :=
  let n := N_of_ascii c in
  (((9 <=? n) && (n <=? 13)) || ((28 <=? n) && (n <=? 32))
   || (n =? 133) || (n =? 160))%N.

(** [chr(x)] for each byte, joined: [''.join([chr(x) for x in reply])]. *)
Definition decode (reply : list Byte.byte) : string :=
  string_of_list_ascii (map ascii_of_byte reply).

(** [s.rstrip()] *)
Fixpoint rstrip (s : string) : string :=
  match s with
  | EmptyString => EmptyString
  | String c r =>
      match rstrip r with
      | EmptyString => if isspace c then EmptyString else String c EmptyString
      | r' => String c r'
      end
  end.

(** [s[n:]] for [n >= 0] *)
Fixpoint slice_from (n : nat) (s : string) : string :=
  match n, s with
  | O, _ => s
  | S _, EmptyString => EmptyString
  | S m, String _ r => slice_from m r
  end.

(** [s[-1]]: the last character, [IndexError] on the empty string. *)
Fixpoint last_char (s : string) : option ascii :=
  match s with
  | EmptyString => None
  | String c EmptyString => Some c
  | String _ r => last_char r
  end.

(** *** [int(s)] on a [str] *)

(** Whitespace that [int()] skips on both sides: the ASCII blanks, and
    the two non-ASCII blanks below 256 (which it first maps to a
    space). *)
Definition int_space (c : ascii) : bool :=
  let n := N_of_ascii c in
  (((9 <=? n) && (n <=? 13)) || (n =? 32) || (n =? 133) || (n =? 160))%N.

Definition digit_val (c : ascii) : option Z :=
  let n := N_of_ascii c in
  if ((48 <=? n) && (n <=? 57))%N then Some (Z.of_N n - 48) else None.

(** The digit scan: digits, with single underscores between them; it
    stops at the first other character and fails when the character
    before the stop is an underscore. *)
Fixpoint scan_digits (s : string) (acc : Z) (prev_us : bool)
  : option (Z * string) :=
  match s with
  | EmptyString => if prev_us then None else Some (acc, EmptyString)
  | String c r =>
      match digit_val c with
      | Some d => scan_digits r (10 * acc + d) false
      | None =>
          if Ascii.eqb c "_"%char
          then (if prev_us then None else scan_digits r acc true)
          else (if prev_us then None else Some (acc, s))
      end
  end.

Fixpoint skip_int_space (s : string) : string :=
  match s with
  | String c r => if int_space c then skip_int_space r else s
  | EmptyString => EmptyString
  end.

(** Magnitude: the first character must be a digit; after the digits
    only blanks may follow. *)
Definition int_magnitude (s : string) : option Z :=
  match s with
  | String c _ =>
      match digit_val c with
      | Some _ =>
          match scan_digits s 0 false with
          | Some (n, rest) =>
              match skip_int_space rest with
              | EmptyString => Some n
              | _ => None
              end
          | None => None
          end
      | None => None
      end
  | EmptyString => None
  end.

(** [int(s)]; [None] stands for the [ValueError] it raises. *)
Definition int_of_str (s : string) : option Z :=
  match skip_int_space s with
  | String "+"%char r => int_magnitude r
  | String "-"%char r => Z.opp <$> int_magnitude r
  | t => int_magnitude t
  end.

(** [format(n, 'b')]: binary digits, most significant first. *)
Fixpoint bin_pos (p : positive) : string :=
  match p with
  | xH => "1"
  | xO q => bin_pos q ++ "0"
  | xI q => bin_pos q ++ "1"
  end.

Definition format_b (n : Z) : string :=
  match n with
  | Z0 => "0"
  | Zpos p => bin_pos p
  | Zneg p => "-" ++ bin_pos p
  end.

(** The characters of a string, each as a one-character string: what
    [for s in text] iterates over. *)
Fixpoint chars (s : string) : list string :=
  match s with
  | EmptyString => []
  | String c r => String c EmptyString :: chars r
  end.

End Py.

(** ** The byte channel and the monad of the driver's methods *)

(** The two USB endpoints, as a test double sees them: [written] is the
    log of the strings handed to [ep_out.write], oldest first; [pending]
    holds the byte arrays that the next calls of [ep_in.read(100)]
    return, in order. *)
Record channel : Type := Channel {
  written : list string;
  pending : list (list Byte.byte)
}.

(** How a call ends: it returns, it raises, or it is still inside one of
    the two polling loops when the fuel given to the loop is used up. *)
Inductive outcome (A : Type) : Type :=
  | Ok (a : A)
  | Raise (e : exn)
  | Spin.
Arguments Ok {A} a.
Arguments Raise {A} e.
Arguments Spin {A}.

(** A method of [Controller]: it runs on the channel and leaves it in a
    new state, also when it raises. *)
Definition M (A : Type) : Type := channel -> outcome A * channel.

#[global] Instance M_ret : MRet M := fun A a ch => (Ok a, ch).

#[global] Instance M_bind : MBind M := fun A B f m ch =>
  match m ch with
  | (Ok a, ch') => f a ch'
  | (Raise e, ch') => (Raise e, ch')
  | (Spin, ch') => (Spin, ch')
  end.

Definition raise {A : Type} (e : exn) : M A := fun ch => (Raise e, ch).

Definition spin {A : Type} : M A := fun ch => (Spin, ch).

(** [if not cond: raise e] *)
Definition raise_if_not (cond : bool) (e : exn) : M unit :=
  if negb cond then raise e else mret tt.

(** [int(s)] *)
Definition int_ (s : string) : M Z :=
  match Py.int_of_str s with
  | Some n => mret n
  | None => raise (ValueError "invalid literal for int() with base 10")
  end.

(** [s[-1]] *)
Definition last_ (s : string) : M ascii :=
  match Py.last_char s with
  | Some c => mret c
  | None => raise (IndexError "string index out of range")
  end.

(** [self.ep_out.write(usb_command)] *)
Definition ep_out_write (usb_command : string) : M unit :=
  fun ch => (Ok tt, Channel (written ch ++ [usb_command]) (pending ch)).

(** [self.ep_in.read(100)]; with no reply left the endpoint times out. *)
Definition ep_in_read : M (list Byte.byte) :=
  fun ch =>
    match pending ch with
    | r :: rest => (Ok r, Channel (written ch) rest)
    | [] => (Raise (USBError "Operation timed out"), ch)
    end.

(** [while not cond(): pass], with [fuel] bounding the number of
    evaluations of the condition. *)
Fixpoint while_not (fuel : nat) (cond : M bool) : M unit :=
  match fuel with
  | O => spin
  | S n => b ← cond; if (b : bool) then mret tt else while_not n cond
  end.

(** [[f(x) for x in l]], stopping at the first exception. *)
Fixpoint for_each {A B : Type} (f : A -> M B) (l : list A) : M (list B) :=
  match l with
  | [] => mret []
  | x :: r => y ← f x; ys ← for_each f r; mret (y :: ys)
  end.

(** The carriage return that ends a command. *)
Definition CR : string := String (ascii_of_nat 13) EmptyString.

(** [MOTOR_TYPE] (picomotor.py, lines 5-10) *)
Definition MOTOR_TYPE : gmap string string :=
  list_to_map
    [ ("0", "No motor connected");
      ("1", "Motor Unknown");
      ("2", "'Tiny' Motor");
      ("3", "'Standard' Motor") ].

(** ** The class [Controller] *)

Module Controller.
Section WithCommands.

(** The command table [COMMANDS] is imported from [commands.py], which
    is not among the sources: it is a parameter of the class, a dict
    from operation names to mnemonic strings. *)
Variable COMMANDS : gmap string string.

(** [COMMANDS[key]] *)
Definition command (key : string) : M string :=
  match COMMANDS !! key with
  | Some mnemonic => mret mnemonic
  | None => raise (KeyError key)
  end.

(** [cmd in COMMANDS.values()] *)
Definition in_values (cmd : string) : bool :=
  bool_decide (cmd ∈ (snd <$> map_to_list COMMANDS)).

Definition send_command (usb_command : string) (get_reply : bool)
  : M (option (list Byte.byte)) :=
  ep_out_write usb_command;;
  if get_reply then r ← ep_in_read; mret (Some r) else mret None.

Definition parse_reply (reply : option (list Byte.byte)) : M string :=
  match reply with
  | Some bytes =>
      let reply := Py.decode bytes in
      mret (Py.slice_from 2 (Py.rstrip reply))
  | None => raise (TypeError "'NoneType' object is not iterable")
  end.

Definition verify_command (cmd : string) : M unit :=
  raise_if_not (in_values cmd) (ValueError "Invalid command").

Definition verify_address_value (addr : value) : M unit :=
  raise_if_not (Py.eq_int addr 1 || Py.eq_int addr 2)
    (ValueError "Invalid address value").

Definition verify_axis_value (axis : value) : M unit :=
  raise_if_not
    (Py.type_is_int axis && Py.int_test axis (fun a => (1 <=? a) && (a <=? 4)))
    (ValueError "Invalid axis value").

Definition format_command (ascii_cmd : string) (addr axis val : value)
  : M string :=
  verify_command ascii_cmd;;
  verify_address_value addr;;
  cmd ← (if Py.truthy axis
         then verify_axis_value axis;;
              mret (Py.str addr ++ ">" ++ Py.str axis ++ ascii_cmd)
         else mret (Py.str addr ++ ">" ++ ascii_cmd));
  match val with
  | VNone => mret (cmd ++ CR)
  | _ => mret (cmd ++ (Py.str val ++ CR))
  end.

Definition get_id (addr : value) : M string :=
  cmd ← (m ← command "id_string"; format_command m addr VNone VNone);
  reply ← (r ← send_command cmd true; parse_reply r);
  mret reply.

Definition get_firmware_version : M string :=
  cmd ← (m ← command "query_firmware";
         format_command m (VInt 1) VNone VNone);
  reply ← (r ← send_command cmd true; parse_reply r);
  mret reply.

Definition set_velocity (addr axis val : value) : M unit :=
  verify_address_value addr;;
  verify_axis_value axis;;
  raise_if_not
    (Py.type_is_int val
     && Py.int_test val (fun v => (1 <=? v) && (v <=? 2000)))
    (ValueError "Velocity must be between 1 and 2000");;
  cmd ← (m ← command "set_velocity"; format_command m addr axis val);
  send_command cmd false;;
  mret tt.

Definition get_velocity (addr axis : value) : M Z :=
  verify_address_value addr;;
  verify_axis_value axis;;
  cmd ← (m ← command "query_velocity"; format_command m addr axis VNone);
  reply ← (r ← send_command cmd true; parse_reply r);
  int_ reply.

Definition set_acceleration (addr axis val : value) : M unit :=
  verify_address_value addr;;
  verify_axis_value axis;;
  raise_if_not
    (Py.type_is_int val
     && Py.int_test val (fun v => (0 <? v) && (v <=? 200000)))
    (ValueError "Invalid acceleration value");;
  cmd ← (m ← command "set_accel"; format_command m addr axis val);
  send_command cmd false;;
  mret tt.

Definition get_acceleration (addr axis : value) : M Z :=
  cmd ← (m ← command "query_accel"; format_command m addr axis VNone);
  reply ← (r ← send_command cmd true; parse_reply r);
  int_ reply.

Definition get_position (addr axis : value) : M Z :=
  verify_address_value addr;;
  verify_axis_value axis;;
  cmd ← (m ← command "query_pos"; format_command m addr axis VNone);
  reply ← (r ← send_command cmd true; parse_reply r);
  int_ reply.

(** [val] defaults to [None]. *)
Definition set_home (addr axis val : value) : M unit :=
  verify_address_value addr;;
  verify_axis_value axis;;
  raise_if_not (Py.type_is_int val)
    (ValueError "Invalid acceleration value");;
  cmd ← (m ← command "define_home"; format_command m addr axis val);
  send_command cmd false;;
  mret tt.

Definition get_home (addr axis : value) : M string :=
  cmd ← (m ← command "query_home"; format_command m addr axis VNone);
  reply ← (r ← send_command cmd true; parse_reply r);
  mret reply.

Definition finished_moving (addr axis : value) : M bool :=
  cmd ← (m ← command "query_motion_done";
         format_command m addr axis VNone);
  reply ← (r ← send_command cmd true; parse_reply r);
  c ← last_ reply;
  mret (Ascii.eqb c "1"%char).

Definition move_indefinitely (addr axis direction : value) : M unit :=
  raise_if_not (Py.eq_str direction "+" || Py.eq_str direction "-")
    (ValueError "Direction must be + or -");;
  verify_address_value addr;;
  verify_axis_value axis;;
  cmd ← (m ← command "move_indefinitely";
         format_command m addr axis direction);
  send_command cmd false;;
  mret tt.

Definition move_to_target (fuel : nat) (addr axis target : value)
  : M unit :=
  verify_address_value addr;;
  verify_axis_value axis;;
  raise_if_not (Py.type_is_int target)
    (ValueError "Invalid target position");;
  cmd ← (m ← command "move_to_target_pos";
         format_command m addr axis target);
  send_command cmd false;;
  while_not fuel (finished_moving addr axis).

Definition get_target (addr axis : value) : M Z :=
  cmd ← (m ← command "query_target_pos";
         format_command m addr axis VNone);
  reply ← (r ← send_command cmd true; parse_reply r);
  int_ reply.

Definition move_relative (fuel : nat) (addr axis steps : value)
  : M unit :=
  verify_address_value addr;;
  verify_axis_value axis;;
  raise_if_not (Py.type_is_int steps)
    (ValueError "Invalid target position");;
  cmd ← (m ← command "move_relative"; format_command m addr axis steps);
  send_command cmd false;;
  while_not fuel (finished_moving addr axis).

Definition get_relative_target (addr axis : value) : M string :=
  cmd ← (m ← command "query_target_rel";
         format_command m addr axis VNone);
  reply ← (r ← send_command cmd true; parse_reply r);
  mret reply.

Definition detect_motors (addr : value) : M unit :=
  verify_address_value addr;;
  cmd ← (m ← command "motor_check"; format_command m addr VNone VNone);
  send_command cmd false;;
  mret tt.

Definition set_motor_type (addr axis val : value) : M unit :=
  verify_address_value addr;;
  verify_axis_value axis;;
  raise_if_not
    (Py.type_is_int val && Py.int_test val (fun v => (0 <=? v) && (v <=? 3)))
    (ValueError "Invalid motor type");;
  cmd ← (m ← command "set_motor_type"; format_command m addr axis val);
  send_command cmd false;;
  mret tt.

Definition get_motor_type (addr axis : value) : M string :=
  cmd ← (m ← command "query_motor_type";
         format_command m addr axis VNone);
  reply ← (r ← send_command cmd true; parse_reply r);
  c ← last_ reply;
  let key := String c EmptyString in
  match MOTOR_TYPE !! key with
  | Some label => mret label
  | None => raise (KeyError key)
  end.

(** [val] defaults to [1].  The call of [format_command] passes [val]
    as the third positional argument, which is [axis]. *)
Definition set_address (addr val : value) : M unit :=
  verify_address_value addr;;
  raise_if_not
    (Py.type_is_int val && Py.int_test val (fun v => (1 <=? v) && (v <=? 31)))
    (ValueError "New address must be between 1 and 31");;
  cmd ← (m ← command "set_address"; format_command m addr val VNone);
  send_command cmd false;;
  mret tt.

Definition get_address (addr : value) : M Z :=
  verify_address_value addr;;
  cmd ← (m ← command "query_address"; format_command m addr VNone VNone);
  reply ← (r ← send_command cmd true; parse_reply r);
  int_ reply.

Definition is_scan_done : M bool :=
  cmd ← (m ← command "query_scan_status";
         format_command m (VInt 1) VNone VNone);
  reply ← (r ← send_command cmd true; parse_reply r);
  c ← last_ reply;
  mret (Ascii.eqb c "1"%char).

(** [conflict_resolution] defaults to [0]. *)
Definition scan (fuel : nat) (conflict_resolution : value) : M unit :=
  raise_if_not
    (Py.type_is_int conflict_resolution
     && Py.int_test conflict_resolution (fun v => (0 <=? v) && (v <=? 2)))
    (ValueError "Conflict resolution scheme must be 0, 1, or 2.");;
  cmd ← (m ← command "scan_RS485";
         format_command m (VInt 1) VNone conflict_resolution);
  send_command cmd false;;
  while_not fuel is_scan_done.

Definition get_controller_address_map : M (list Z) :=
  cmd ← (m ← command "query_RS485_addr";
         format_command m (VInt 1) VNone VNone);
  reply ← (r ← send_command cmd true; parse_reply r);
  n ← int_ reply;
  address_map ← for_each int_ (Py.chars (Py.format_b n));
  mret (rev address_map).

Definition save_settings : M unit :=
  cmd ← (m ← command "save"; format_command m (VInt 1) VNone VNone);
  send_command cmd false;;
  mret tt.

Definition stop_motion (addr axis : value) : M unit :=
  verify_address_value addr;;
  verify_axis_value axis;;
  cmd ← (m ← command "stop"; format_command m addr axis VNone);
  send_command cmd false;;
  mret tt.

Definition get_latest_error_msg : M string :=
  cmd ← (m ← command "query_error_msg";
         format_command m (VInt 1) VNone VNone);
  reply ← (r ← send_command cmd true; parse_reply r);
  mret reply.

Definition get_latest_error_code : M string :=
  cmd ← (m ← command "query_error_nr";
         format_command m (VInt 1) VNone VNone);
  reply ← (r ← send_command cmd true; parse_reply r);
  mret reply.

Definition purge_all_settings : M unit :=
  cmd ← (m ← command "purge_memory";
         format_command m (VInt 1) VNone VNone);
  send_command cmd false;;
  mret tt.

End WithCommands.
End Controller.

(** Modelled from the spec: the command table of [commands.py], which
    is not among the sources.  The properties below are proved for every
    table; this one serves to run the driver on concrete input.  "VA"
    and "MD?" are the mnemonics of the design document's wire examples
    ("1>1VA500\r", "1>MD?\r"); the other entries follow the controller's
    command set, and nothing proved depends on their spelling. *)
Definition sample_commands : gmap string string :=
  list_to_map
    [ ("set_velocity", "VA"); ("query_velocity", "VA?");
      ("set_accel", "AC"); ("query_accel", "AC?");
      ("query_motion_done", "MD?");
      ("move_to_target_pos", "PA"); ("move_relative", "PR");
      ("move_indefinitely", "MV");
      ("query_motor_type", "QM?");
      ("set_address", "SA"); ("query_address", "SA?");
      ("scan_RS485", "SC"); ("query_RS485_addr", "SC?");
      ("query_scan_status", "SD?");
      ("define_home", "DH"); ("query_firmware", "VE?") ].

(** A reply as the endpoint delivers it: the bytes of an ASCII text. *)
Definition bytes_of (s : string) : list Byte.byte := list_byte_of_string s.

(** Line feed, for the terminator of a reply. *)
Definition LF : string := String (ascii_of_nat 10) EmptyString.

(** A channel on which nothing was written yet, with the given replies
    waiting. *)
Definition fresh (replies : list string) : channel :=
  Channel [] (map bytes_of replies).

(** ** Valid arguments, as the design document names them *)

(** Address in {1, 2}, by Python's equality. *)
Definition valid_address (addr : value) : bool :=
  Py.eq_int addr 1 || Py.eq_int addr 2.

(** Axis an [int] in [1, 4]. *)
Definition valid_axis (axis : value) : bool :=
  match axis with VInt a => (1 <=? a) && (a <=? 4) | _ => false end.

(** The value segment of a command: empty when the value is omitted. *)
Definition value_segment (val : value) : string :=
  match val with VNone => "" | _ => Py.str val end.

(** The text the parser returns for a reply: decoded, right-stripped,
    first two characters dropped. *)
Definition cleaned (reply : list Byte.byte) : string :=
  Py.slice_from 2 (Py.rstrip (Py.decode reply)).

(** The command text for given arguments: the axis field is present
    when the axis is truthy, the value field when the value is not
    [None]. *)
Definition wire (mnemonic : string) (addr axis val : value) : string :=
  if Py.truthy axis
  then Py.str addr ++ ">" ++ Py.str axis ++ mnemonic ++ value_segment val ++ CR
  else Py.str addr ++ ">" ++ mnemonic ++ value_segment val ++ CR.

(** The channel after one more command was written. *)
Definition sent (cmd : string) (ch : channel) : channel :=
  Channel (written ch ++ [cmd]) (pending ch).

(** The channel after a command was written and one reply taken. *)
Definition exchanged (cmd : string) (ch : channel) : channel :=
  Channel (written ch ++ [cmd]) (tail (pending ch)).

(** The binary digits of a positive number, least significant first. *)
Fixpoint bits_lsb (p : positive) : list Z :=
  match p with
  | xH => [1]
  | xO q => 0 :: bits_lsb q
  | xI q => 1 :: bits_lsb q
  end.

(** The address map the design document describes for a bitmask [n >= 0]:
    its binary digits, least significant first, with the single digit 0
    for [n = 0]. *)
Definition address_map_of (n : Z) : list Z :=
  match n with
  | Zpos p => bits_lsb p
  | _ => [0]
  end.

(** What a status reply says: [Some true] when its cleaned text ends in
    '1', [Some false] when it ends in another character, [None] when
    the cleaned text is empty. *)
Definition reply_status (r : list Byte.byte) : option bool :=
  (fun c => Ascii.eqb c "1"%char) <$> Py.last_char (cleaned r).

(** The calls of the operations that check their address, and their axis
    when they have one, themselves: each runs [verify_address_value]
    (and [verify_axis_value]) in its own body before it formats a
    command. *)
Inductive call : Type :=
  | Set_velocity (addr axis val : value)
  | Get_velocity (addr axis : value)
  | Set_acceleration (addr axis val : value)
  | Get_position (addr axis : value)
  | Set_home (addr axis val : value)
  | Move_indefinitely (addr axis direction : value)
  | Move_to_target (addr axis target : value)
  | Move_relative (addr axis steps : value)
  | Detect_motors (addr : value)
  | Set_motor_type (addr axis val : value)
  | Set_address (addr val : value)
  | Get_address (addr : value)
  | Stop_motion (addr axis : value).

Definition call_addr (c : call) : value :=
  match c with
  | Set_velocity a _ _ | Get_velocity a _ | Set_acceleration a _ _
  | Get_position a _ | Set_home a _ _ | Move_indefinitely a _ _
  | Move_to_target a _ _ | Move_relative a _ _ | Detect_motors a
  | Set_motor_type a _ _ | Set_address a _ | Get_address a
  | Stop_motion a _ => a
  end.

Definition call_axis (c : call) : option value :=
  match c with
  | Set_velocity _ x _ | Get_velocity _ x | Set_acceleration _ x _
  | Get_position _ x | Set_home _ x _ | Move_indefinitely _ x _
  | Move_to_target _ x _ | Move_relative _ x _
  | Set_motor_type _ x _ | Stop_motion _ x => Some x
  | Detect_motors _ | Set_address _ _ | Get_address _ => None
  end.

(** Running a call; the result is the Python value the method returns. *)
Definition perform (COMMANDS : gmap string string) (fuel : nat) (c : call)
  : M value :=
  match c with
  | Set_velocity a x v => Controller.set_velocity COMMANDS a x v;; mret VNone
  | Get_velocity a x => n ← Controller.get_velocity COMMANDS a x; mret (VInt n)
  | Set_acceleration a x v =>
      Controller.set_acceleration COMMANDS a x v;; mret VNone
  | Get_position a x => n ← Controller.get_position COMMANDS a x; mret (VInt n)
  | Set_home a x v => Controller.set_home COMMANDS a x v;; mret VNone
  | Move_indefinitely a x d =>
      Controller.move_indefinitely COMMANDS a x d;; mret VNone
  | Move_to_target a x t =>
      Controller.move_to_target COMMANDS fuel a x t;; mret VNone
  | Move_relative a x s =>
      Controller.move_relative COMMANDS fuel a x s;; mret VNone
  | Detect_motors a => Controller.detect_motors COMMANDS a;; mret VNone
  | Set_motor_type a x v =>
      Controller.set_motor_type COMMANDS a x v;; mret VNone
  | Set_address a v => Controller.set_address COMMANDS a v;; mret VNone
  | Get_address a => n ← Controller.get_address COMMANDS a; mret (VInt n)
  | Stop_motion a x => Controller.stop_motion COMMANDS a x;; mret VNone
  end.

(** The address or the axis of the call is outside its domain. *)
Definition out_of_domain (c : call) : bool :=
  negb (valid_address (call_addr c))
  || match call_axis c with Some x => negb (valid_axis x) | None => false end.

(** [move_indefinitely] looks at its direction before the address. *)
Definition direction_rejected (c : call) : bool :=
  match c with
  | Move_indefinitely _ _ d => negb (Py.eq_str d "+" || Py.eq_str d "-")
  | _ => false
  end.

(** The message of the check that fails first. *)
Definition rejection (c : call) : string :=
  if direction_rejected c then "Direction must be + or -"
  else if valid_address (call_addr c) then "Invalid axis value"
  else "Invalid address value".

(** Every public method of [Controller] that talks to the device, with
    its arguments. *)
Inductive method : Type :=
  | M_get_id (addr : value)
  | M_get_firmware_version
  | M_set_velocity (addr axis val : value)
  | M_get_velocity (addr axis : value)
  | M_set_acceleration (addr axis val : value)
  | M_get_acceleration (addr axis : value)
  | M_get_position (addr axis : value)
  | M_set_home (addr axis val : value)
  | M_get_home (addr axis : value)
  | M_finished_moving (addr axis : value)
  | M_move_indefinitely (addr axis direction : value)
  | M_move_to_target (addr axis target : value)
  | M_get_target (addr axis : value)
  | M_move_relative (addr axis steps : value)
  | M_get_relative_target (addr axis : value)
  | M_detect_motors (addr : value)
  | M_set_motor_type (addr axis val : value)
  | M_get_motor_type (addr axis : value)
  | M_set_address (addr val : value)
  | M_get_address (addr : value)
  | M_scan (conflict_resolution : value)
  | M_is_scan_done
  | M_get_controller_address_map
  | M_save_settings
  | M_stop_motion (addr axis : value)
  | M_get_latest_error_msg
  | M_get_latest_error_code
  | M_purge_all_settings.

(** Forgetting what a call returns. *)
Definition discard {A : Type} (m : M A) : M unit := m;; mret tt.

(** Calling a method, for its effect on the channel and the way it ends. *)
Definition invoke (COMMANDS : gmap string string) (fuel : nat) (m : method)
  : M unit :=
  match m with
  | M_get_id a => discard (Controller.get_id COMMANDS a)
  | M_get_firmware_version => discard (Controller.get_firmware_version COMMANDS)
  | M_set_velocity a x v => Controller.set_velocity COMMANDS a x v
  | M_get_velocity a x => discard (Controller.get_velocity COMMANDS a x)
  | M_set_acceleration a x v => Controller.set_acceleration COMMANDS a x v
  | M_get_acceleration a x => discard (Controller.get_acceleration COMMANDS a x)
  | M_get_position a x => discard (Controller.get_position COMMANDS a x)
  | M_set_home a x v => Controller.set_home COMMANDS a x v
  | M_get_home a x => discard (Controller.get_home COMMANDS a x)
  | M_finished_moving a x => discard (Controller.finished_moving COMMANDS a x)
  | M_move_indefinitely a x d => Controller.move_indefinitely COMMANDS a x d
  | M_move_to_target a x t => Controller.move_to_target COMMANDS fuel a x t
  | M_get_target a x => discard (Controller.get_target COMMANDS a x)
  | M_move_relative a x s => Controller.move_relative COMMANDS fuel a x s
  | M_get_relative_target a x =>
      discard (Controller.get_relative_target COMMANDS a x)
  | M_detect_motors a => Controller.detect_motors COMMANDS a
  | M_set_motor_type a x v => Controller.set_motor_type COMMANDS a x v
  | M_get_motor_type a x => discard (Controller.get_motor_type COMMANDS a x)
  | M_set_address a v => Controller.set_address COMMANDS a v
  | M_get_address a => discard (Controller.get_address COMMANDS a)
  | M_scan c => Controller.scan COMMANDS fuel c
  | M_is_scan_done => discard (Controller.is_scan_done COMMANDS)
  | M_get_controller_address_map =>
      discard (Controller.get_controller_address_map COMMANDS)
  | M_save_settings => Controller.save_settings COMMANDS
  | M_stop_motion a x => Controller.stop_motion COMMANDS a x
  | M_get_latest_error_msg => discard (Controller.get_latest_error_msg COMMANDS)
  | M_get_latest_error_code =>
      discard (Controller.get_latest_error_code COMMANDS)
  | M_purge_all_settings => Controller.purge_all_settings COMMANDS
  end.

(** The key under which a method looks up its mnemonic. *)
Definition method_key (m : method) : string :=
  match m with
  | M_get_id _ => "id_string"
  | M_get_firmware_version => "query_firmware"
  | M_set_velocity _ _ _ => "set_velocity"
  | M_get_velocity _ _ => "query_velocity"
  | M_set_acceleration _ _ _ => "set_accel"
  | M_get_acceleration _ _ => "query_accel"
  | M_get_position _ _ => "query_pos"
  | M_set_home _ _ _ => "define_home"
  | M_get_home _ _ => "query_home"
  | M_finished_moving _ _ => "query_motion_done"
  | M_move_indefinitely _ _ _ => "move_indefinitely"
  | M_move_to_target _ _ _ => "move_to_target_pos"
  | M_get_target _ _ => "query_target_pos"
  | M_move_relative _ _ _ => "move_relative"
  | M_get_relative_target _ _ => "query_target_rel"
  | M_detect_motors _ => "motor_check"
  | M_set_motor_type _ _ _ => "set_motor_type"
  | M_get_motor_type _ _ => "query_motor_type"
  | M_set_address _ _ => "set_address"
  | M_get_address _ => "query_address"
  | M_scan _ => "scan_RS485"
  | M_is_scan_done => "query_scan_status"
  | M_get_controller_address_map => "query_RS485_addr"
  | M_save_settings => "save"
  | M_stop_motion _ _ => "stop"
  | M_get_latest_error_msg => "query_error_msg"
  | M_get_latest_error_code => "query_error_nr"
  | M_purge_all_settings => "purge_memory"
  end.

(** A computation keeps the discipline of the channel when, from any
    state, it only appends to the log of written commands, only takes
    replies from the front of the pending ones, and takes no more
    replies than it wrote commands. *)
Definition disciplined {A : Type} (m : M A) : Prop :=
  forall ch : channel,
    exists (ws : list string) (k : nat),
      written (snd (m ch)) = (written ch ++ ws)%list
      /\ pending (snd (m ch)) = drop k (pending ch)
      /\ (k <= length ws)%nat.

(** A computation gives up before touching the channel, with a
    [KeyError] for [key] or with a [ValueError]. *)
Definition gives_up {A : Type} (key : string) (m : M A) : Prop :=
  forall ch : channel,
    exists e : exn,
      m ch = (Raise e, ch)
      /\ (e = KeyError key \/ exists msg, e = ValueError msg).

(** Every character is one that [rstrip] removes. *)
Fixpoint all_space (s : string) : bool :=
  match s with
  | EmptyString => true
  | String c r => Py.isspace c && all_space r
  end.

(** No character is one that [rstrip] removes. *)
Fixpoint no_space (s : string) : bool :=
  match s with
  | EmptyString => true
  | String c r => negb (Py.isspace c) && no_space r
  end.

(** What [int(reply)] makes of a cleaned reply. *)
Definition int_answer (r : list Byte.byte) : outcome Z :=
  match Py.int_of_str (cleaned r) with
  | Some n => Ok n
  | None => Raise (ValueError "invalid literal for int() with base 10")
  end.

(** Modelled from the spec: [sample_commands] with entries for more
    operations, for runs of them; the same remark applies. *)
Definition position_commands : gmap string string :=
  <["query_pos" := "TP?"]>
    (<["save" := "SM"]>
       (<["stop" := "ST"]>
          (<["motor_check" := "MC"]>
             (<["set_motor_type" := "QM"]> sample_commands)))).

(** The five operations that send one value after checking it. *)
Inductive setter : Type :=
  | S_velocity
  | S_acceleration
  | S_motor_type
  | S_home
  | S_move_indefinitely.

Definition setter_run (COMMANDS : gmap string string) (s : setter)
  : value -> value -> value -> M unit :=
  match s with
  | S_velocity => Controller.set_velocity COMMANDS
  | S_acceleration => Controller.set_acceleration COMMANDS
  | S_motor_type => Controller.set_motor_type COMMANDS
  | S_home => Controller.set_home COMMANDS
  | S_move_indefinitely => Controller.move_indefinitely COMMANDS
  end.

Definition setter_key (s : setter) : string :=
  match s with
  | S_velocity => "set_velocity"
  | S_acceleration => "set_accel"
  | S_motor_type => "set_motor_type"
  | S_home => "define_home"
  | S_move_indefinitely => "move_indefinitely"
  end.

(** The values each of them sends. *)
Definition setter_domain (s : setter) (val : value) : Prop :=
  match s with
  | S_velocity => exists v, val = VInt v /\ 1 <= v <= 2000
  | S_acceleration => exists v, val = VInt v /\ 0 < v <= 200000
  | S_motor_type => exists v, val = VInt v /\ 0 <= v <= 3
  | S_home => exists v, val = VInt v
  | S_move_indefinitely => val = VStr "+" \/ val = VStr "-"
  end.

(** The message of the [ValueError] for the other values; [set_home]
    raises with the text of [set_acceleration]. *)
Definition setter_message (s : setter) : string :=
  match s with
  | S_velocity => "Velocity must be between 1 and 2000"
  | S_acceleration => "Invalid acceleration value"
  | S_motor_type => "Invalid motor type"
  | S_home => "Invalid acceleration value"
  | S_move_indefinitely => "Direction must be + or -"
  end.

(** ** The example script, [example.py] *)

(** The search of [l.index(x, start)], from position [i] on. *)
Fixpoint index_from (x : Z) (l : list Z) (i : nat) : option nat :=
  match l with
  | [] => None
  | y :: r => if y =? x then Some i else index_from x r (S i)
  end.

(** [l.index(x, start)]: the first position from [start] on that holds
    [x]; [ValueError] when there is none. *)
Definition list_index (x : Z) (start : nat) (l : list Z) : M nat :=
  match index_from x (drop start l) start with
  | Some i => mret i
  | None => raise (ValueError (Py.str_int x ++ " is not in list"))
  end.

(** Lines 22 to 25 of the script, without the prints: the address map
    is fetched and the slave is looked for from address 2 on. *)
Definition find_slave (COMMANDS : gmap string string) : M nat :=
  addr_map ← Controller.get_controller_address_map COMMANDS;
  list_index 1 2 addr_map.

(** * Properties *)

Example str_int_500 : Py.str_int 500 = "500".
Proof. reflexivity. Qed.

Example str_int_neg : Py.str_int (-12) = "-12".
Proof. reflexivity. Qed.

Example str_int_zero : Py.str_int 0 = "0".
Proof. reflexivity. Qed.

Example int_of_str_samples :
  Py.int_of_str "500" = Some 500 /\ Py.int_of_str " -1_0 " = Some (-10)
  /\ Py.int_of_str "" = None /\ Py.int_of_str "1__0" = None
  /\ Py.int_of_str "_1" = None /\ Py.int_of_str "12a" = None
  /\ Py.int_of_str "007" = Some 7 /\ Py.int_of_str "+ 1" = None.
Proof. repeat split; reflexivity. Qed.

Example format_b_samples :
  Py.format_b 5 = "101" /\ Py.format_b 0 = "0" /\ Py.format_b (-5) = "-101".
Proof. repeat split; reflexivity. Qed.

(** The parser on the reply "1>XYZ\r\n". *)
Example parse_reply_XYZ :
  Controller.parse_reply (Some (bytes_of ("1>XYZ" ++ CR ++ LF))) (fresh [])
  = (Ok "XYZ", fresh []).
Proof. reflexivity. Qed.

(** [get_velocity(1, 2)] against a channel that answers "1>500\r". *)
Example get_velocity_500 :
  Controller.get_velocity sample_commands (VInt 1) (VInt 2)
    (fresh ["1>500" ++ CR])
  = (Ok 500, Channel ["1>2VA?" ++ CR] []).
Proof. reflexivity. Qed.

(** [set_velocity(1, 1, 500)] writes "1>1VA500\r". *)
Example set_velocity_500 :
  Controller.set_velocity sample_commands (VInt 1) (VInt 1) (VInt 500)
    (fresh [])
  = (Ok tt, Channel ["1>1VA500" ++ CR] []).
Proof. reflexivity. Qed.

(** [scan(3)] is rejected before any write. *)
Example scan_3 :
  Controller.scan sample_commands 5 (VInt 3) (fresh [])
  = (Raise (ValueError "Conflict resolution scheme must be 0, 1, or 2."),
     fresh []).
Proof. reflexivity. Qed.

(** ** Reasoning about runs *)

Lemma bind_run {A B : Type} (m : M A) (f : A -> M B) (ch : channel) :
  (m ≫= f) ch =
  match m ch with
  | (Ok a, ch') => f a ch'
  | (Raise e, ch') => (Raise e, ch')
  | (Spin, ch') => (Spin, ch')
  end.
Proof. reflexivity. Qed.

Lemma bind_ok {A B : Type} (m : M A) (f : A -> M B) ch a ch' :
  m ch = (Ok a, ch') -> (m ≫= f) ch = f a ch'.
Proof. intros H. rewrite bind_run, H. reflexivity. Qed.

Lemma bind_raise {A B : Type} (m : M A) (f : A -> M B) ch e ch' :
  m ch = (Raise e, ch') -> (m ≫= f) ch = (Raise e, ch').
Proof. intros H. rewrite bind_run, H. reflexivity. Qed.

Lemma raise_if_not_true e ch : raise_if_not true e ch = (Ok tt, ch).
Proof. reflexivity. Qed.

Lemma raise_if_not_false e ch : raise_if_not false e ch = (Raise e, ch).
Proof. reflexivity. Qed.

Lemma append_cons a s t : String a s ++ t = String a (s ++ t).
Proof. reflexivity. Qed.

Lemma append_assoc (s t u : string) : (s ++ t) ++ u = s ++ (t ++ u).
Proof.
  induction s as [|a s IH]; [reflexivity|].
  rewrite !append_cons. f_equal. exact IH.
Qed.

Lemma append_empty_r (s : string) : s ++ "" = s.
Proof.
  induction s as [|a s IH]; [reflexivity|].
  rewrite append_cons. f_equal. exact IH.
Qed.

Section Formatter.
Variable COMMANDS : gmap string string.
Import Controller.

Lemma in_values_lookup key mnemonic :
  COMMANDS !! key = Some mnemonic -> in_values COMMANDS mnemonic = true.
Proof.
  intros H. unfold in_values. apply bool_decide_eq_true.
  apply list_elem_of_fmap. exists (key, mnemonic). split; [reflexivity|].
  apply elem_of_map_to_list. exact H.
Qed.

Lemma command_run key mnemonic ch :
  COMMANDS !! key = Some mnemonic ->
  command COMMANDS key ch = (Ok mnemonic, ch).
Proof. intros H. unfold command. rewrite H. reflexivity. Qed.

Lemma verify_address_value_run addr ch :
  verify_address_value addr ch =
  if valid_address addr then (Ok tt, ch)
  else (Raise (ValueError "Invalid address value"), ch).
Proof.
  unfold verify_address_value, valid_address.
  destruct (_ || _); reflexivity.
Qed.

Lemma verify_axis_value_run axis ch :
  verify_axis_value axis ch =
  if valid_axis axis then (Ok tt, ch)
  else (Raise (ValueError "Invalid axis value"), ch).
Proof.
  unfold verify_axis_value, valid_axis.
  destruct axis as [| b | a | s]; try reflexivity.
  cbn [Py.type_is_int Py.int_test andb]. destruct (_ && _); reflexivity.
Qed.

Lemma valid_axis_truthy axis : valid_axis axis = true -> Py.truthy axis = true.
Proof.
  destruct axis as [| b | a | s]; cbn; try discriminate.
  intros H. destruct (Z.eqb_spec a 0) as [->|]; [discriminate H | reflexivity].
Qed.

(** The formatter on a command of the table and a valid address. *)
Lemma format_command_run mnemonic addr axis val ch :
  in_values COMMANDS mnemonic = true ->
  valid_address addr = true ->
  format_command COMMANDS mnemonic addr axis val ch =
  if Py.truthy axis
  then (if valid_axis axis
        then (Ok (Py.str addr ++ ">" ++ Py.str axis ++ mnemonic
                  ++ value_segment val ++ CR), ch)
        else (Raise (ValueError "Invalid axis value"), ch))
  else (Ok (Py.str addr ++ ">" ++ mnemonic ++ value_segment val ++ CR), ch).
Proof.
  intros Hm Ha. unfold format_command, verify_command.
  rewrite Hm. rewrite (bind_ok _ _ _ _ _ (raise_if_not_true _ _)).
  rewrite (bind_ok _ _ ch tt ch)
    by (rewrite verify_address_value_run, Ha; reflexivity).
  destruct (Py.truthy axis).
  - rewrite !bind_run, verify_axis_value_run.
    destruct (valid_axis axis); [|reflexivity].
    unfold mret, M_ret.
    destruct val; cbn [value_segment];
      rewrite ?append_assoc; reflexivity.
  - rewrite bind_run. unfold mret, M_ret.
    destruct val; cbn [value_segment]; rewrite ?append_assoc; reflexivity.
Qed.

End Formatter.
Section FormatterClaims.
Variable COMMANDS : gmap string string.
Import Controller.

(** The formatter neither writes to the channel nor reads from it:
    the channel comes back as it was and the result does not depend
    on it. *)
Lemma format_command_pure mnemonic addr axis val ch ch' :
  snd (format_command COMMANDS mnemonic addr axis val ch) = ch
  /\ fst (format_command COMMANDS mnemonic addr axis val ch)
     = fst (format_command COMMANDS mnemonic addr axis val ch').
Proof.
  unfold format_command, verify_command, verify_address_value,
    verify_axis_value, raise_if_not.
  rewrite !bind_run.
  destruct (negb (in_values COMMANDS mnemonic)); [split; reflexivity|].
  cbn [mret M_ret]. rewrite !bind_run.
  destruct (negb (Py.eq_int addr 1 || Py.eq_int addr 2));
    [split; reflexivity|].
  cbn [mret M_ret]. rewrite !bind_run.
  destruct (Py.truthy axis).
  - rewrite !bind_run.
    destruct (negb _); [split; reflexivity|].
    cbn [mret M_ret]. destruct val; split; reflexivity.
  - cbn [mret M_ret]. destruct val; split; reflexivity.
Qed.

(** C4. For a mnemonic of the command table, an address in {1, 2} and
    an axis in [1, 4], [format_command] returns exactly
    "{addr}>{axis}{mnemonic}{value}\r"; without an axis the axis digit
    is dropped, without a value the value segment is dropped; the
    channel is left as it was. *)
Theorem format_command_wire_format
    (key mnemonic : string) (addr axis : Z) (val : value) (ch : channel) :
  COMMANDS !! key = Some mnemonic ->
  addr = 1 \/ addr = 2 ->
  1 <= axis <= 4 ->
  format_command COMMANDS mnemonic (VInt addr) (VInt axis) val ch
  = (Ok (Py.str_int addr ++ ">" ++ Py.str_int axis ++ mnemonic
         ++ value_segment val ++ CR), ch)
  /\ format_command COMMANDS mnemonic (VInt addr) VNone val ch
     = (Ok (Py.str_int addr ++ ">" ++ mnemonic
            ++ value_segment val ++ CR), ch)
  /\ format_command COMMANDS mnemonic (VInt addr) (VInt axis) VNone ch
     = (Ok (Py.str_int addr ++ ">" ++ Py.str_int axis ++ mnemonic ++ CR),
        ch)
  /\ format_command COMMANDS mnemonic (VInt addr) VNone VNone ch
     = (Ok (Py.str_int addr ++ ">" ++ mnemonic ++ CR), ch).
Proof.
  intros Hkey Haddr Haxis.
  pose proof (in_values_lookup _ _ _ Hkey) as Hm.
  assert (Ha : valid_address (VInt addr) = true)
    by (destruct Haddr as [-> | ->]; reflexivity).
  assert (Hx : valid_axis (VInt axis) = true).
  { cbn. apply andb_true_intro. split; apply Z.leb_le; lia. }
  pose proof (valid_axis_truthy _ Hx) as Ht.
  repeat split; rewrite (format_command_run _ _ _ _ _ _ Hm Ha);
    rewrite ?Ht, ?Hx; reflexivity.
Qed.

(** C9. With a mnemonic of the table and an address in {1, 2}, the
    axis value 0 raises nothing and gives the command that omitting
    the axis gives, "{addr}>{mnemonic}{value}\r": the axis check is not
    run for it. *)
Theorem format_command_axis_zero
    (key mnemonic : string) (addr : Z) (val : value) (ch : channel) :
  COMMANDS !! key = Some mnemonic ->
  addr = 1 \/ addr = 2 ->
  format_command COMMANDS mnemonic (VInt addr) (VInt 0) val ch
  = format_command COMMANDS mnemonic (VInt addr) VNone val ch
  /\ format_command COMMANDS mnemonic (VInt addr) (VInt 0) val ch
     = (Ok (Py.str_int addr ++ ">" ++ mnemonic ++ value_segment val ++ CR),
        ch)
  /\ verify_axis_value (VInt 0) ch
     = (Raise (ValueError "Invalid axis value"), ch).
Proof.
  intros Hkey Haddr.
  pose proof (in_values_lookup _ _ _ Hkey) as Hm.
  assert (Ha : valid_address (VInt addr) = true)
    by (destruct Haddr as [-> | ->]; reflexivity).
  repeat split. rewrite (format_command_run _ _ _ _ _ _ Hm Ha). reflexivity.
Qed.

End FormatterClaims.

Lemma format_command_wire_format_witness :
  Controller.format_command sample_commands "VA" (VInt 1) (VInt 1) (VInt 500)
    (fresh [])
  = (Ok ("1>1VA500" ++ CR), fresh []).
Proof.
  apply (format_command_wire_format sample_commands "set_velocity" "VA" 1 1
           (VInt 500) (fresh [])); [reflexivity | left; reflexivity | lia].
Defined.

Lemma format_command_axis_zero_witness :
  Controller.format_command sample_commands "MD?" (VInt 2) (VInt 0) VNone
    (fresh [])
  = (Ok ("2>MD?" ++ CR), fresh []).
Proof.
  apply (format_command_axis_zero sample_commands "query_motion_done" "MD?" 2
           VNone (fresh [])); [reflexivity | right; reflexivity].
Defined.

(** ** Replies *)


Lemma parse_reply_run (reply : list Byte.byte) (ch : channel) :
  Controller.parse_reply (Some reply) ch = (Ok (cleaned reply), ch).
Proof. reflexivity. Qed.

Lemma slice_from_short (n : nat) (s : string) :
  (String.length s <= n)%nat -> Py.slice_from n s = "".
Proof.
  revert s. induction n as [|n IH]; intros [|c s] H; cbn in *;
    try reflexivity; try lia.
  apply IH. lia.
Qed.

(** C1, as the code has it. A reply whose decoded, right-stripped text
    has fewer than 2 characters makes [parse_reply] return the empty
    string; it raises nothing. *)
Theorem parse_reply_short_reply (reply : list Byte.byte) (ch : channel) :
  (String.length (Py.rstrip (Py.decode reply)) < 2)%nat ->
  Controller.parse_reply (Some reply) ch = (Ok "", ch).
Proof.
  intros H. rewrite parse_reply_run. unfold cleaned.
  rewrite slice_from_short by lia. reflexivity.
Qed.

Lemma parse_reply_short_reply_witness :
  Controller.parse_reply (Some (bytes_of (">" ++ CR ++ LF))) (fresh [])
  = (Ok "", fresh []).
Proof.
  apply (parse_reply_short_reply (bytes_of (">" ++ CR ++ LF)) (fresh [])).
  vm_compute. lia.
Defined.

(** C1 as stated does not hold: the empty reply is short, and
    [parse_reply] returns on it. *)
Lemma parse_reply_short_reply_no_error :
  ~ (forall (reply : list Byte.byte) (ch : channel),
        (String.length (Py.rstrip (Py.decode reply)) < 2)%nat ->
        exists e, fst (Controller.parse_reply (Some reply) ch) = Raise e).
Proof.
  intros H. destruct (H [] (fresh [])) as [e He]; [cbn; lia|].
  discriminate He.
Qed.

(** ** Exchanges with the controller *)

Section Exchanges.
Variable COMMANDS : gmap string string.
Import Controller.

Lemma format_command_ok mnemonic addr axis val ch :
  in_values COMMANDS mnemonic = true ->
  valid_address addr = true ->
  valid_axis axis = true \/ Py.truthy axis = false ->
  format_command COMMANDS mnemonic addr axis val ch
  = (Ok (wire mnemonic addr axis val), ch).
Proof.
  intros Hm Ha Hx. rewrite (format_command_run _ _ _ _ _ _ Hm Ha).
  unfold wire. destruct Hx as [Hx | Hx].
  - rewrite (valid_axis_truthy _ Hx), Hx. reflexivity.
  - rewrite Hx. reflexivity.
Qed.

(** [COMMANDS[key]] followed by the formatter. *)
Lemma lookup_format_ok key mnemonic addr axis val ch :
  COMMANDS !! key = Some mnemonic ->
  valid_address addr = true ->
  valid_axis axis = true \/ Py.truthy axis = false ->
  (command COMMANDS key
     ≫= fun m => format_command COMMANDS m addr axis val) ch
  = (Ok (wire mnemonic addr axis val), ch).
Proof.
  intros Hk Ha Hx.
  rewrite (bind_ok _ _ _ _ _ (command_run _ _ _ _ Hk)).
  apply format_command_ok; eauto using in_values_lookup.
Qed.

Lemma send_command_no_reply cmd ch :
  send_command cmd false ch = (Ok None, sent cmd ch).
Proof. reflexivity. Qed.

(** A query: the command is written, the next reply is read and
    cleaned. *)
Lemma send_and_parse cmd ch r rest :
  pending ch = r :: rest ->
  (send_command cmd true ≫= parse_reply) ch
  = (Ok (cleaned r), exchanged cmd ch).
Proof.
  intros Hp. unfold send_command, ep_out_write, ep_in_read, exchanged.
  rewrite !bind_run. cbn [pending written]. rewrite Hp. reflexivity.
Qed.

(** With no reply waiting the read times out, after the write. *)
Lemma send_and_parse_timeout cmd ch :
  pending ch = [] ->
  (send_command cmd true ≫= parse_reply) ch
  = (Raise (USBError "Operation timed out"), sent cmd ch).
Proof.
  intros Hp. unfold send_command, ep_out_write, ep_in_read, sent.
  rewrite !bind_run. cbn [pending written]. rewrite Hp. reflexivity.
Qed.

Lemma finished_moving_run m addr axis ch r rest :
  COMMANDS !! "query_motion_done" = Some m ->
  valid_address addr = true ->
  valid_axis axis = true \/ Py.truthy axis = false ->
  pending ch = r :: rest ->
  finished_moving COMMANDS addr axis ch
  = (match Py.last_char (cleaned r) with
     | Some c => Ok (Ascii.eqb c "1"%char)
     | None => Raise (IndexError "string index out of range")
     end, exchanged (wire m addr axis VNone) ch).
Proof.
  intros Hk Ha Hx Hp. unfold finished_moving.
  rewrite (bind_ok _ _ _ _ _ (lookup_format_ok _ _ _ _ _ _ Hk Ha Hx)).
  rewrite (bind_ok _ _ _ _ _ (send_and_parse _ _ _ _ Hp)).
  unfold last_. destruct (Py.last_char (cleaned r)); reflexivity.
Qed.

Lemma is_scan_done_run m ch r rest :
  COMMANDS !! "query_scan_status" = Some m ->
  pending ch = r :: rest ->
  is_scan_done COMMANDS ch
  = (match Py.last_char (cleaned r) with
     | Some c => Ok (Ascii.eqb c "1"%char)
     | None => Raise (IndexError "string index out of range")
     end, exchanged (wire m (VInt 1) VNone VNone) ch).
Proof.
  intros Hk Hp. unfold is_scan_done.
  rewrite (bind_ok _ _ ch (wire m (VInt 1) VNone VNone) ch)
    by (apply lookup_format_ok; auto).
  rewrite (bind_ok _ _ _ _ _ (send_and_parse _ _ _ _ Hp)).
  unfold last_. destruct (Py.last_char (cleaned r)); reflexivity.
Qed.

(** C8. On a reply whose cleaned text is not empty, [finished_moving]
    (valid address and axis) and [is_scan_done] return, and the result
    is true exactly when the last character of the cleaned text is
    '1', whatever precedes it. *)
Theorem status_queries_last_char
    (ch : channel) (r : list Byte.byte) (rest : list (list Byte.byte)) :
  pending ch = r :: rest ->
  cleaned r <> "" ->
  (forall m addr axis,
      COMMANDS !! "query_motion_done" = Some m ->
      valid_address addr = true -> valid_axis axis = true ->
      exists b, fst (finished_moving COMMANDS addr axis ch) = Ok b
                /\ (b = true <-> Py.last_char (cleaned r) = Some "1"%char))
  /\ (forall m,
      COMMANDS !! "query_scan_status" = Some m ->
      exists b, fst (is_scan_done COMMANDS ch) = Ok b
                /\ (b = true <-> Py.last_char (cleaned r) = Some "1"%char)).
Proof.
  intros Hp Hne.
  assert (Hl : exists c, Py.last_char (cleaned r) = Some c).
  { clear Hp. induction (cleaned r) as [|c s IH]; [congruence|].
    destruct s as [|c' s]; [exists c; reflexivity|].
    destruct IH as [d Hd]; [discriminate|]. exists d. exact Hd. }
  destruct Hl as [c Hc].
  assert (Hiff : Ascii.eqb c "1" = true <-> Some c = Some "1"%char).
  { rewrite Ascii.eqb_eq. split; congruence. }
  split.
  - intros m addr axis Hk Ha Hx. exists (Ascii.eqb c "1").
    rewrite (finished_moving_run _ _ _ _ _ _ Hk Ha (or_introl Hx) Hp), Hc.
    split; [reflexivity | exact Hiff].
  - intros m Hk. exists (Ascii.eqb c "1").
    rewrite (is_scan_done_run _ _ _ _ Hk Hp), Hc.
    split; [reflexivity | exact Hiff].
Qed.

End Exchanges.

Lemma status_queries_last_char_witness :
  (exists b,
      fst (Controller.finished_moving sample_commands (VInt 1) (VInt 2)
             (fresh ["1>0 01" ++ CR ++ LF])) = Ok b
      /\ (b = true <->
          Py.last_char (cleaned (bytes_of ("1>0 01" ++ CR ++ LF)))
          = Some "1"%char)).
Proof.
  refine (proj1 (status_queries_last_char sample_commands
                   (fresh ["1>0 01" ++ CR ++ LF])
                   (bytes_of ("1>0 01" ++ CR ++ LF)) [] _ _)
            "MD?" (VInt 1) (VInt 2) _ _ _);
    try reflexivity.
  vm_compute. discriminate.
Defined.

(** ** Motor type, home and address *)

Section Operations.
Variable COMMANDS : gmap string string.
Import Controller.

Lemma get_motor_type_run m addr axis ch r rest :
  COMMANDS !! "query_motor_type" = Some m ->
  valid_address addr = true ->
  valid_axis axis = true \/ Py.truthy axis = false ->
  pending ch = r :: rest ->
  get_motor_type COMMANDS addr axis ch
  = (match Py.last_char (cleaned r) with
     | Some c =>
         match MOTOR_TYPE !! String c "" with
         | Some label => Ok label
         | None => Raise (KeyError (String c ""))
         end
     | None => Raise (IndexError "string index out of range")
     end, exchanged (wire m addr axis VNone) ch).
Proof.
  intros Hk Ha Hx Hp. unfold get_motor_type.
  rewrite (bind_ok _ _ _ _ _ (lookup_format_ok _ _ _ _ _ _ _ Hk Ha Hx)).
  rewrite (bind_ok _ _ _ _ _ (send_and_parse _ _ _ _ Hp)).
  unfold last_. destruct (Py.last_char (cleaned r)) as [c|]; [|reflexivity].
  rewrite bind_run. cbn [mret M_ret].
  destruct (MOTOR_TYPE !! String c ""); reflexivity.
Qed.

Lemma MOTOR_TYPE_other (c : ascii) :
  c <> "0"%char -> c <> "1"%char -> c <> "2"%char -> c <> "3"%char ->
  MOTOR_TYPE !! String c "" = None.
Proof.
  intros H0 H1 H2 H3. unfold MOTOR_TYPE. cbn [list_to_map foldr uncurry fst snd].
  rewrite !lookup_insert_ne by congruence. apply lookup_empty.
Qed.

(** C7. [get_motor_type] (valid address and axis) returns the label of
    the code that ends the cleaned reply: "No motor connected" for 0,
    "Motor Unknown" for 1, "'Tiny' Motor" for 2, "'Standard' Motor"
    for 3; for any other last character the lookup in [MOTOR_TYPE]
    raises [KeyError]. *)
Theorem get_motor_type_labels
    (m : string) (addr axis : value) (ch : channel)
    (r : list Byte.byte) (rest : list (list Byte.byte)) (c : ascii) :
  COMMANDS !! "query_motor_type" = Some m ->
  valid_address addr = true ->
  valid_axis axis = true ->
  pending ch = r :: rest ->
  Py.last_char (cleaned r) = Some c ->
  fst (get_motor_type COMMANDS addr axis ch)
  = if Ascii.eqb c "0" then Ok "No motor connected"
    else if Ascii.eqb c "1" then Ok "Motor Unknown"
    else if Ascii.eqb c "2" then Ok "'Tiny' Motor"
    else if Ascii.eqb c "3" then Ok "'Standard' Motor"
    else Raise (KeyError (String c "")).
Proof.
  intros Hk Ha Hx Hp Hc.
  rewrite (get_motor_type_run _ _ _ _ _ _ Hk Ha (or_introl Hx) Hp), Hc.
  cbn [fst].
  destruct (Ascii.eqb_spec c "0") as [-> | H0]; [reflexivity|].
  destruct (Ascii.eqb_spec c "1") as [-> | H1]; [reflexivity|].
  destruct (Ascii.eqb_spec c "2") as [-> | H2]; [reflexivity|].
  destruct (Ascii.eqb_spec c "3") as [-> | H3]; [reflexivity|].
  rewrite MOTOR_TYPE_other by assumption. reflexivity.
Qed.

(** C10. Without [val] (that is, with [None]) [set_home] on a valid
    address and axis raises [ValueError] and the channel is as before:
    nothing was written. *)
Theorem set_home_default_raises (addr axis : value) (ch : channel) :
  valid_address addr = true ->
  valid_axis axis = true ->
  set_home COMMANDS addr axis VNone ch
  = (Raise (ValueError "Invalid acceleration value"), ch).
Proof.
  intros Ha Hx. unfold set_home.
  rewrite (bind_ok _ _ ch tt ch)
    by (rewrite verify_address_value_run, Ha; reflexivity).
  rewrite (bind_ok _ _ ch tt ch)
    by (rewrite verify_axis_value_run, Hx; reflexivity).
  reflexivity.
Qed.

(** Whatever the address and the axis, [set_home] without [val] ends in
    a [ValueError] with nothing written. *)
Lemma set_home_default_never_writes (addr axis : value) (ch : channel) :
  exists msg,
    set_home COMMANDS addr axis VNone ch = (Raise (ValueError msg), ch).
Proof.
  unfold set_home. rewrite bind_run, verify_address_value_run.
  destruct (valid_address addr); [|eauto].
  rewrite bind_run, verify_axis_value_run.
  destruct (valid_axis axis); eauto.
Qed.

(** C2, what the code does. [set_address] hands the new address to the
    formatter in the axis position: for a new address up to 4 the
    command written is "{addr}>{val}{mnemonic}\r", with the value
    before the mnemonic; for 5 to 31 the axis check raises and
    nothing is written. *)
Theorem set_address_value_in_axis_slot
    (m : string) (addr val : Z) (ch : channel) :
  COMMANDS !! "set_address" = Some m ->
  addr = 1 \/ addr = 2 ->
  1 <= val <= 31 ->
  set_address COMMANDS (VInt addr) (VInt val) ch
  = if val <=? 4
    then (Ok tt, sent (Py.str_int addr ++ ">" ++ Py.str_int val ++ m ++ CR) ch)
    else (Raise (ValueError "Invalid axis value"), ch).
Proof.
  intros Hk Haddr Hval.
  pose proof (in_values_lookup _ _ _ Hk) as Hm.
  assert (Ha : valid_address (VInt addr) = true)
    by (destruct Haddr as [-> | ->]; reflexivity).
  unfold set_address.
  rewrite (bind_ok _ _ ch tt ch)
    by (rewrite verify_address_value_run, Ha; reflexivity).
  assert (Hr : ((1 <=? val) && (val <=? 31)) = true)
    by (apply andb_true_intro; split; apply Z.leb_le; lia).
  cbn [Py.type_is_int Py.int_test andb]. rewrite Hr.
  rewrite (bind_ok _ _ _ _ _ (raise_if_not_true _ _)).
  rewrite (bind_run (command _ _ ≫= _)).
  rewrite (bind_ok _ _ _ _ _ (command_run _ _ _ _ Hk)).
  rewrite (format_command_run _ _ _ _ _ _ Hm Ha).
  assert (Ht : Py.truthy (VInt val) = true).
  { cbn. destruct (Z.eqb_spec val 0); [lia | reflexivity]. }
  rewrite Ht. cbn [valid_axis].
  assert (H1 : (1 <=? val) = true) by (apply Z.leb_le; lia).
  rewrite H1. cbn [andb].
  destruct (val <=? 4); reflexivity.
Qed.

End Operations.

Lemma get_motor_type_labels_witness :
  fst (Controller.get_motor_type sample_commands (VInt 1) (VInt 3)
         (fresh ["1>2" ++ CR ++ LF]))
  = Ok "'Tiny' Motor".
Proof.
  apply (get_motor_type_labels sample_commands "QM?" (VInt 1) (VInt 3)
           (fresh ["1>2" ++ CR ++ LF]) (bytes_of ("1>2" ++ CR ++ LF)) []
           "2"%char); reflexivity.
Defined.

Lemma set_home_default_raises_witness :
  Controller.set_home sample_commands (VInt 1) (VInt 1) VNone (fresh [])
  = (Raise (ValueError "Invalid acceleration value"), fresh []).
Proof.
  apply (set_home_default_raises sample_commands (VInt 1) (VInt 1) (fresh []));
    reflexivity.
Defined.

Lemma set_address_value_in_axis_slot_witness :
  Controller.set_address sample_commands (VInt 1) (VInt 5) (fresh [])
  = (Raise (ValueError "Invalid axis value"), fresh []).
Proof.
  apply (set_address_value_in_axis_slot sample_commands "SA" 1 5 (fresh []));
    [reflexivity | left; reflexivity | lia].
Defined.

(** With 2 as the new address the value lands before the mnemonic. *)
Example set_address_1_2 :
  Controller.set_address sample_commands (VInt 1) (VInt 2) (fresh [])
  = (Ok tt, Channel ["1>2SA" ++ CR] []).
Proof. reflexivity. Qed.

(** ** The address map *)

Lemma chars_app (s t : string) : Py.chars (s ++ t) = (Py.chars s ++ Py.chars t)%list.
Proof.
  induction s as [|c s IH]; [reflexivity|].
  rewrite append_cons. cbn [Py.chars]. rewrite IH. reflexivity.
Qed.

Lemma for_each_int_snoc (l : list string) (zs : list Z) (d : string) (z : Z)
    (ch : channel) :
  for_each int_ l ch = (Ok zs, ch) ->
  Py.int_of_str d = Some z ->
  for_each int_ (l ++ [d])%list ch = (Ok (zs ++ [z])%list, ch).
Proof.
  intros H Hd. revert zs H. induction l as [|x l IH]; intros zs H.
  - change (for_each int_ [] ch) with (@Ok (list Z) [], ch) in H.
    injection H as <-. cbn [app for_each].
    rewrite bind_run. unfold int_. rewrite Hd. reflexivity.
  - cbn [app for_each] in H |- *. rewrite bind_run in H |- *.
    destruct (int_ x ch) as [[n | e |] ch1] eqn:Hx; try discriminate H.
    assert (ch1 = ch) as ->.
    { unfold int_, raise, mret, M_ret in Hx.
      destruct (Py.int_of_str x); congruence. }
    rewrite bind_run in H |- *.
    destruct (for_each int_ l ch) as [[ys | e |] ch'] eqn:Hr;
      try discriminate H.
    cbn [mret M_ret mbind M_bind] in H. injection H as <- ->.
    rewrite (IH ys eq_refl). reflexivity.
Qed.

Lemma for_each_int_bin_pos (p : positive) (ch : channel) :
  for_each int_ (Py.chars (Py.bin_pos p)) ch = (Ok (rev (bits_lsb p)), ch).
Proof.
  induction p as [q IH | q IH |]; cbn [Py.bin_pos bits_lsb rev].
  - rewrite chars_app. apply for_each_int_snoc; [exact IH | reflexivity].
  - rewrite chars_app. apply for_each_int_snoc; [exact IH | reflexivity].
  - reflexivity.
Qed.

Lemma bits_lsb_testbit (p : positive) (i : nat) :
  (i < length (bits_lsb p))%nat ->
  bits_lsb p !! i = Some (Z.b2z (Z.testbit (Zpos p) (Z.of_nat i))).
Proof.
  revert i. induction p as [q IH | q IH |]; intros [|i] Hi;
    cbn [bits_lsb length] in *; try reflexivity.
  - change (bits_lsb q !! i = Some (Z.b2z (Z.testbit (Z.pos q~1) (Z.of_nat (S i))))).
    rewrite (IH i) by lia.
    rewrite Nat2Z.inj_succ.
    change (Z.pos q~1) with (2 * Z.pos q + 1).
    rewrite Z.testbit_odd_succ by lia. reflexivity.
  - change (bits_lsb q !! i = Some (Z.b2z (Z.testbit (Z.pos q~0) (Z.of_nat (S i))))).
    rewrite (IH i) by lia.
    rewrite Nat2Z.inj_succ.
    change (Z.pos q~0) with (2 * Z.pos q).
    rewrite Z.testbit_even_succ by lia. reflexivity.
  - lia.
Qed.

Lemma bits_lsb_beyond (p : positive) (i : nat) :
  (length (bits_lsb p) <= i)%nat ->
  Z.testbit (Zpos p) (Z.of_nat i) = false.
Proof.
  revert i. induction p as [q IH | q IH |]; intros [|i] Hi;
    cbn [bits_lsb length] in *; try lia.
  - rewrite Nat2Z.inj_succ.
    change (Z.pos q~1) with (2 * Z.pos q + 1).
    rewrite Z.testbit_odd_succ by lia. apply IH. lia.
  - rewrite Nat2Z.inj_succ.
    change (Z.pos q~0) with (2 * Z.pos q).
    rewrite Z.testbit_even_succ by lia. apply IH. lia.
  - rewrite Nat2Z.inj_succ.
    change 1 with (2 * 0 + 1) at 1.
    rewrite Z.testbit_odd_succ by lia. apply Z.testbit_0_l.
Qed.

Lemma address_map_of_testbit (n : Z) (i : nat) :
  0 <= n ->
  (i < length (address_map_of n))%nat ->
  address_map_of n !! i = Some (Z.b2z (Z.testbit n (Z.of_nat i))).
Proof.
  intros Hn Hi. destruct n as [|p|p]; [| |lia].
  - destruct i; [reflexivity | cbn in Hi; lia].
  - apply bits_lsb_testbit. exact Hi.
Qed.

Lemma address_map_of_beyond (n : Z) (i : nat) :
  0 <= n ->
  (length (address_map_of n) <= i)%nat ->
  Z.testbit n (Z.of_nat i) = false.
Proof.
  intros Hn Hi. destruct n as [|p|p]; [| |lia].
  - apply Z.testbit_0_l.
  - apply bits_lsb_beyond. exact Hi.
Qed.

Section AddressMap.
Variable COMMANDS : gmap string string.
Import Controller.

Lemma get_controller_address_map_run m ch r rest n :
  COMMANDS !! "query_RS485_addr" = Some m ->
  pending ch = r :: rest ->
  Py.int_of_str (cleaned r) = Some n ->
  get_controller_address_map COMMANDS ch
  = (match for_each int_ (Py.chars (Py.format_b n))
             (exchanged (wire m (VInt 1) VNone VNone) ch) with
     | (Ok address_map, ch') => (Ok (rev address_map), ch')
     | (Raise e, ch') => (Raise e, ch')
     | (Spin, ch') => (Spin, ch')
     end).
Proof.
  intros Hk Hp Hn. unfold get_controller_address_map.
  rewrite (bind_ok _ _ ch (wire m (VInt 1) VNone VNone) ch)
    by (apply lookup_format_ok; auto).
  rewrite (bind_ok _ _ _ _ _ (send_and_parse _ _ _ _ Hp)).
  rewrite (bind_ok _ _ _ n (exchanged (wire m (VInt 1) VNone VNone) ch))
    by (unfold int_; rewrite Hn; reflexivity).
  rewrite bind_run. reflexivity.
Qed.

(** C5. When the cleaned reply reads as the decimal integer [n >= 0],
    [get_controller_address_map] returns the binary digits of [n] in
    reversed order: element [i] is bit [i] of [n] (index 0 the conflict
    flag, index [i] the occupancy of address [i]), and no set bit of
    [n] lies beyond the list; for the bitmask 101 (decimal 5) the map
    is [1, 0, 1]. *)
Theorem get_controller_address_map_bits
    (m : string) (ch : channel) (r : list Byte.byte)
    (rest : list (list Byte.byte)) (n : Z) :
  COMMANDS !! "query_RS485_addr" = Some m ->
  pending ch = r :: rest ->
  Py.int_of_str (cleaned r) = Some n ->
  0 <= n ->
  exists address_map : list Z,
    get_controller_address_map COMMANDS ch
    = (Ok address_map, exchanged ("1>" ++ m ++ CR) ch)
    /\ for_each int_ (Py.chars (Py.format_b n)) ch
       = (Ok (rev address_map), ch)
    /\ (forall i : nat, (i < length address_map)%nat ->
          address_map !! i = Some (Z.b2z (Z.testbit n (Z.of_nat i))))
    /\ (forall i : nat, (length address_map <= i)%nat ->
          Z.testbit n (Z.of_nat i) = false)
    /\ (n = 5 -> address_map = [1; 0; 1]).
Proof.
  intros Hk Hp Hr Hn. exists (address_map_of n).
  assert (Hd : forall c, for_each int_ (Py.chars (Py.format_b n)) c
                         = (Ok (rev (address_map_of n)), c)).
  { intros c. destruct n as [|p|p]; [reflexivity | | lia].
    apply for_each_int_bin_pos. }
  split; [|split; [|split; [|split]]].
  - rewrite (get_controller_address_map_run _ _ _ _ _ Hk Hp Hr), Hd.
    rewrite rev_involutive. reflexivity.
  - apply Hd.
  - intros i Hi. apply address_map_of_testbit; assumption.
  - intros i Hi. apply address_map_of_beyond; assumption.
  - intros ->. reflexivity.
Qed.

(** A negative bitmask has the digits "-101...": [int('-')] raises. *)
Lemma get_controller_address_map_negative m ch r rest p :
  COMMANDS !! "query_RS485_addr" = Some m ->
  pending ch = r :: rest ->
  Py.int_of_str (cleaned r) = Some (Zneg p) ->
  get_controller_address_map COMMANDS ch
  = (Raise (ValueError "invalid literal for int() with base 10"),
     exchanged ("1>" ++ m ++ CR) ch).
Proof.
  intros Hk Hp Hr.
  rewrite (get_controller_address_map_run _ _ _ _ _ Hk Hp Hr).
  reflexivity.
Qed.

End AddressMap.

Lemma get_controller_address_map_bits_witness :
  exists address_map : list Z,
    Controller.get_controller_address_map sample_commands
      (fresh ["1>5" ++ CR ++ LF])
    = (Ok address_map, exchanged ("1>SC?" ++ CR) (fresh ["1>5" ++ CR ++ LF]))
    /\ address_map = [1; 0; 1].
Proof.
  destruct (get_controller_address_map_bits sample_commands "SC?"
              (fresh ["1>5" ++ CR ++ LF]) (bytes_of ("1>5" ++ CR ++ LF)) [] 5)
    as (address_map & Hrun & _ & _ & _ & H5);
    [reflexivity | reflexivity | reflexivity | lia |].
  exists address_map. split; [exact Hrun | exact (H5 eq_refl)].
Defined.

(** ** The polling loops *)

Lemma exchanged_cons (q : string) (ch : channel) r rest :
  pending ch = r :: rest ->
  exchanged q ch = Channel (written ch ++ [q]) rest.
Proof. intros H. unfold exchanged. rewrite H. reflexivity. Qed.

Section Polling.
(** A status query: it writes [query] and decides on the next reply. *)
Variable cond : M bool.
Variable query : string.
Hypothesis cond_run : forall ch r rest,
  pending ch = r :: rest ->
  cond ch
  = (match reply_status r with
     | Some b => Ok b
     | None => Raise (IndexError "string index out of range")
     end, exchanged query ch).

(** The loop ends at the first reply that says done, after one query
    for each reply up to it. *)
Lemma while_not_done (nd : list (list Byte.byte)) :
  forall (fuel : nat) (ch : channel) d rest,
    Forall (fun r => reply_status r = Some false) nd ->
    reply_status d = Some true ->
    pending ch = (nd ++ d :: rest)%list ->
    (length nd < fuel)%nat ->
    while_not fuel cond ch
    = (Ok tt,
       Channel (written ch ++ replicate (S (length nd)) query) rest).
Proof.
  induction nd as [|r nd IH]; intros fuel ch d rest Hnd Hd Hp Hf;
    (destruct fuel as [|fuel]; [cbn in Hf; lia|]);
    cbn [while_not]; rewrite bind_run.
  - rewrite (cond_run ch d rest Hp), Hd, (exchanged_cons _ _ _ _ Hp).
    reflexivity.
  - rewrite (cond_run ch r (nd ++ d :: rest)%list Hp).
    inversion Hnd as [|? ? Hr Hnd']; subst. rewrite Hr.
    rewrite (exchanged_cons _ _ _ _ Hp).
    rewrite (IH fuel _ d rest Hnd' Hd); [| reflexivity
                                         | cbn [length] in Hf; lia].
    cbn [written length replicate].
    rewrite <- app_assoc. reflexivity.
Qed.

(** While the replies say not done the loop goes on: with fuel for no
    more queries than there are such replies it is still polling. *)
Lemma while_not_spinning (nd : list (list Byte.byte)) :
  forall (fuel : nat) (ch : channel) rest,
    Forall (fun r => reply_status r = Some false) nd ->
    pending ch = (nd ++ rest)%list ->
    (fuel <= length nd)%nat ->
    fst (while_not fuel cond ch) = Spin.
Proof.
  induction nd as [|r nd IH]; intros fuel ch rest Hnd Hp Hf;
    (destruct fuel as [|fuel]; [reflexivity|]); cbn [length] in Hf;
    [lia|].
  cbn [while_not]. rewrite bind_run.
  rewrite (cond_run ch r (nd ++ rest)%list Hp).
  inversion Hnd as [|? ? Hr Hnd']; subst. rewrite Hr.
  rewrite (exchanged_cons _ _ _ _ Hp).
  apply (IH fuel _ rest Hnd'); [reflexivity | lia].
Qed.

End Polling.

Section Motion.
Variable COMMANDS : gmap string string.
Import Controller.

Lemma finished_moving_status m addr axis :
  COMMANDS !! "query_motion_done" = Some m ->
  valid_address addr = true ->
  valid_axis axis = true ->
  forall ch r rest,
    pending ch = r :: rest ->
    finished_moving COMMANDS addr axis ch
    = (match reply_status r with
       | Some b => Ok b
       | None => Raise (IndexError "string index out of range")
       end, exchanged (wire m addr axis VNone) ch).
Proof.
  intros Hk Ha Hx ch r rest Hp.
  rewrite (finished_moving_run _ _ _ _ _ _ _ Hk Ha (or_introl Hx) Hp).
  unfold reply_status. destruct (Py.last_char (cleaned r)); reflexivity.
Qed.

(** C6. [move_to_target] and [move_relative] write the move command
    once and then query the motion status until a reply says done.  On
    replies of which [nd] say not done and the next one, [d], says
    done, the call returns after exactly [length nd + 1] status
    queries, with the replies after [d] still unread; as long as the
    loop has run for no more queries than [nd] has replies, the call
    has not returned.  For three replies not done and then done, that
    is four status queries. *)
Theorem move_polls_until_done
    (mq mt mr : string) (fuel : nat) (addr axis target : Z) (ch : channel)
    (nd : list (list Byte.byte)) (d : list Byte.byte)
    (rest : list (list Byte.byte)) :
  COMMANDS !! "query_motion_done" = Some mq ->
  COMMANDS !! "move_to_target_pos" = Some mt ->
  COMMANDS !! "move_relative" = Some mr ->
  addr = 1 \/ addr = 2 ->
  1 <= axis <= 4 ->
  pending ch = (nd ++ d :: rest)%list ->
  Forall (fun r => reply_status r = Some false) nd ->
  reply_status d = Some true ->
  let status := wire mq (VInt addr) (VInt axis) VNone in
  let log mv := (written ch
                 ++ wire mv (VInt addr) (VInt axis) (VInt target)
                    :: replicate (S (length nd)) status)%list in
  ((length nd < fuel)%nat ->
     move_to_target COMMANDS fuel (VInt addr) (VInt axis) (VInt target) ch
     = (Ok tt, Channel (log mt) rest)
     /\ move_relative COMMANDS fuel (VInt addr) (VInt axis) (VInt target) ch
        = (Ok tt, Channel (log mr) rest))
  /\ ((fuel <= length nd)%nat ->
        fst (move_to_target COMMANDS fuel (VInt addr) (VInt axis)
               (VInt target) ch) = Spin
        /\ fst (move_relative COMMANDS fuel (VInt addr) (VInt axis)
                  (VInt target) ch) = Spin).
Proof.
  intros Hq Ht Hr Haddr Haxis Hp Hnd Hd status log.
  assert (Ha : valid_address (VInt addr) = true)
    by (destruct Haddr as [-> | ->]; reflexivity).
  assert (Hx : valid_axis (VInt axis) = true).
  { cbn. apply andb_true_intro. split; apply Z.leb_le; lia. }
  pose proof (finished_moving_status _ _ _ Hq Ha Hx) as Hcond.
  assert (Hpre : forall key m, COMMANDS !! key = Some m ->
    forall k : M unit,
      (verify_address_value (VInt addr);;
       verify_axis_value (VInt axis);;
       raise_if_not (Py.type_is_int (VInt target))
         (ValueError "Invalid target position");;
       cmd ← (m ← command COMMANDS key;
              format_command COMMANDS m (VInt addr) (VInt axis)
                (VInt target));
       send_command cmd false;; k) ch
      = k (sent (wire m (VInt addr) (VInt axis) (VInt target)) ch)).
  { intros key m Hk k.
    rewrite (bind_ok _ _ ch tt ch)
      by (rewrite verify_address_value_run, Ha; reflexivity).
    rewrite (bind_ok _ _ ch tt ch)
      by (rewrite verify_axis_value_run, Hx; reflexivity).
    rewrite (bind_ok _ _ ch tt ch) by reflexivity.
    rewrite (bind_ok _ _ _ _ _
               (lookup_format_ok _ _ _ _ _ _ _ Hk Ha (or_introl Hx))).
    reflexivity. }
  assert (Hp' : forall mv,
    pending (sent (wire mv (VInt addr) (VInt axis) (VInt target)) ch)
    = (nd ++ d :: rest)%list) by (intros; exact Hp).
  split.
  - intros Hf. unfold move_to_target, move_relative.
    rewrite (Hpre _ _ Ht), (Hpre _ _ Hr).
    rewrite !(while_not_done _ _ Hcond nd fuel _ d rest Hnd Hd (Hp' _) Hf).
    unfold log, sent. cbn [written]. rewrite <- !app_assoc.
    split; reflexivity.
  - intros Hf. unfold move_to_target, move_relative.
    rewrite (Hpre _ _ Ht), (Hpre _ _ Hr).
    split;
      apply (while_not_spinning _ _ Hcond nd fuel _ (d :: rest) Hnd (Hp' _) Hf).
Qed.

End Motion.

Lemma move_polls_until_done_witness :
  let not_done := bytes_of ("1>0" ++ CR ++ LF) in
  let done := bytes_of ("1>1" ++ CR ++ LF) in
  Controller.move_to_target sample_commands 10 (VInt 1) (VInt 1) (VInt 500)
    (Channel [] [not_done; not_done; not_done; done])
  = (Ok tt,
     Channel ["1>1PA500" ++ CR; "1>1MD?" ++ CR; "1>1MD?" ++ CR;
              "1>1MD?" ++ CR; "1>1MD?" ++ CR] []).
Proof.
  intros not_done done.
  refine (proj1 (proj1 (move_polls_until_done sample_commands
                          "MD?" "PA" "PR" 10 1 1 500
                          (Channel [] [not_done; not_done; not_done; done])
                          [not_done; not_done; not_done] done []
                          _ _ _ _ _ _ _ _) _));
    try reflexivity.
  - left; reflexivity.
  - lia.
  - repeat constructor.
  - cbn. lia.
Defined.

(** ** Validation before any write *)

Section Validation.
Variable COMMANDS : gmap string string.
Import Controller.

(** The two checks at the head of an operation, when one of them
    fails. *)
Lemma verify_both_reject {A : Type} (addr axis : value) (k : M A) ch :
  valid_address addr && valid_axis axis = false ->
  (verify_address_value addr;; verify_axis_value axis;; k) ch
  = (Raise (ValueError (if valid_address addr then "Invalid axis value"
                        else "Invalid address value")), ch).
Proof.
  intros H. rewrite bind_run, verify_address_value_run.
  destruct (valid_address addr); [|reflexivity].
  rewrite bind_run, verify_axis_value_run.
  cbn [andb] in H. rewrite H. reflexivity.
Qed.

Lemma verify_address_reject {A : Type} (addr : value) (k : M A) ch :
  valid_address addr = false ->
  (verify_address_value addr;; k) ch
  = (Raise (ValueError "Invalid address value"), ch).
Proof.
  intros H. rewrite bind_run, verify_address_value_run, H. reflexivity.
Qed.

(** Every operation that checks its address
    and axis itself raises [ValueError] on an address outside {1, 2}
    or an axis outside [1, 4], and the channel is as before the call:
    nothing was written.  The message is that of the address check,
    or else of the axis check; only [move_indefinitely] reports an
    invalid direction first. *)
Theorem validated_call_rejects (fuel : nat) (c : call) (ch : channel) :
  out_of_domain c = true ->
  perform COMMANDS fuel c ch = (Raise (ValueError (rejection c)), ch).
Proof.
  unfold out_of_domain, rejection.
  destruct c as [a x v | a x | a x v | a x | a x v | a x d | a x t | a x s
                | a | a x v | a v | a | a x];
    cbn [call_addr call_axis direction_rejected perform]; intros H;
    rewrite bind_run;
    unfold set_velocity, get_velocity, set_acceleration, get_position,
      set_home, move_indefinitely, move_to_target, move_relative,
      detect_motors, set_motor_type, set_address, get_address, stop_motion.
  (* the direction guard of move_indefinitely comes first *)
  6: rewrite bind_run;
     destruct (Py.eq_str d "+" || Py.eq_str d "-"); [|reflexivity];
     rewrite raise_if_not_true.
  (* operations with an address only *)
  all: try (rewrite orb_false_r in H; apply negb_true_iff in H;
            rewrite (verify_address_reject _ _ _ H), H; reflexivity).
  (* operations with an address and an axis *)
  all: assert (Hb : valid_address a && valid_axis x = false)
         by (destruct (valid_address a), (valid_axis x);
             [discriminate H | reflexivity ..]);
       rewrite (verify_both_reject _ _ _ _ Hb);
       destruct (valid_address a); reflexivity.
Qed.

(** The operations that leave the checks to the formatter (on a command
    of the table) are rejected by it, before any write, for an invalid
    address and for an invalid axis that is truthy. *)
Lemma format_command_rejects key m addr axis val ch :
  COMMANDS !! key = Some m ->
  valid_address addr = false
  \/ (Py.truthy axis = true /\ valid_axis axis = false) ->
  (command COMMANDS key
     ≫= fun m => format_command COMMANDS m addr axis val) ch
  = (Raise (ValueError (if valid_address addr then "Invalid axis value"
                        else "Invalid address value")), ch).
Proof.
  intros Hk H.
  rewrite (bind_ok _ _ _ _ _ (command_run _ _ _ _ Hk)).
  unfold format_command, verify_command.
  rewrite (in_values_lookup _ _ _ Hk).
  rewrite (bind_ok _ _ _ _ _ (raise_if_not_true _ _)).
  rewrite bind_run, verify_address_value_run.
  destruct (valid_address addr); [|reflexivity].
  destruct H as [H | [Ht Hx]]; [discriminate H|].
  rewrite Ht, !bind_run, verify_axis_value_run, Hx. reflexivity.
Qed.

Lemma get_acceleration_rejects m addr axis ch :
  COMMANDS !! "query_accel" = Some m ->
  valid_address addr = false
  \/ (Py.truthy axis = true /\ valid_axis axis = false) ->
  exists msg,
    get_acceleration COMMANDS addr axis ch = (Raise (ValueError msg), ch).
Proof.
  intros Hk H. unfold get_acceleration.
  rewrite (bind_raise _ _ _ _ _ (format_command_rejects _ _ _ _ _ _ Hk H)).
  eauto.
Qed.

(** The axis 0 is not truthy, so the formatter does not check it: the
    queries that rely on the formatter ([get_acceleration], [get_home],
    [finished_moving], [get_target], [get_relative_target],
    [get_motor_type]) send their command without an axis field.  Here
    for [get_acceleration]. *)
Lemma get_acceleration_axis_zero m ch r rest :
  COMMANDS !! "query_accel" = Some m ->
  pending ch = r :: rest ->
  written (snd (get_acceleration COMMANDS (VInt 1) (VInt 0) ch))
  = (written ch ++ [("1>" ++ m ++ CR)%string])%list.
Proof.
  intros Hk Hp. unfold get_acceleration.
  rewrite (bind_ok _ _ ch (wire m (VInt 1) (VInt 0) VNone) ch)
    by (apply lookup_format_ok; auto).
  rewrite (bind_ok _ _ _ _ _ (send_and_parse _ _ _ _ Hp)).
  unfold int_. destruct (Py.int_of_str (cleaned r)); reflexivity.
Qed.

End Validation.

Lemma validated_call_rejects_witness :
  perform sample_commands 5 (Set_velocity (VInt 3) (VInt 1) (VInt 500))
    (fresh [])
  = (Raise (ValueError "Invalid address value"), fresh []).
Proof.
  apply (validated_call_rejects sample_commands 5
           (Set_velocity (VInt 3) (VInt 1) (VInt 500)) (fresh [])).
  reflexivity.
Defined.

(** ** The formatter on every input *)

Section FormatterTotal.
Variable COMMANDS : gmap string string.
Import Controller.

(** The formatter checks the command first, then the address, then the
    axis (only when it is truthy); whatever the arguments it ends in one
    of these three errors or in the command text, and the channel is
    untouched. *)
Theorem format_command_checks_in_order
    (mnemonic : string) (addr axis val : value) (ch : channel) :
  format_command COMMANDS mnemonic addr axis val ch
  = (if negb (in_values COMMANDS mnemonic)
     then Raise (ValueError "Invalid command")
     else if negb (valid_address addr)
     then Raise (ValueError "Invalid address value")
     else if Py.truthy axis && negb (valid_axis axis)
     then Raise (ValueError "Invalid axis value")
     else Ok (wire mnemonic addr axis val), ch).
Proof.
  destruct (in_values COMMANDS mnemonic) eqn:Hm; cbn [negb].
  - destruct (valid_address addr) eqn:Ha; cbn [negb].
    + rewrite (format_command_run _ _ _ _ _ _ Hm Ha). unfold wire.
      destruct (Py.truthy axis), (valid_axis axis); reflexivity.
    + unfold format_command, verify_command. rewrite Hm.
      rewrite (bind_ok _ _ _ _ _ (raise_if_not_true _ _)).
      rewrite bind_run, verify_address_value_run, Ha. reflexivity.
  - unfold format_command, verify_command. rewrite Hm. reflexivity.
Qed.

End FormatterTotal.

(** ** The discipline of the channel *)

Lemma disciplined_pure {A : Type} (m : M A) :
  (forall ch, snd (m ch) = ch) -> disciplined m.
Proof.
  intros H ch. exists [], 0%nat. rewrite H, app_nil_r. auto.
Qed.

Lemma disciplined_ret {A : Type} (a : A) : disciplined (mret a : M A).
Proof. apply disciplined_pure. reflexivity. Qed.

Lemma disciplined_raise {A : Type} (e : exn) : disciplined (raise e : M A).
Proof. apply disciplined_pure. reflexivity. Qed.

Lemma disciplined_spin {A : Type} : disciplined (spin : M A).
Proof. apply disciplined_pure. reflexivity. Qed.

Lemma disciplined_bind {A B : Type} (m : M A) (f : A -> M B) :
  disciplined m -> (forall a, disciplined (f a)) -> disciplined (m ≫= f).
Proof.
  intros Hm Hf ch. rewrite bind_run.
  destruct (Hm ch) as (ws & k & Hw & Hp & Hk).
  destruct (m ch) as [[a | e |] ch1]; cbn [snd] in *;
    [| exists ws, k; auto ..].
  destruct (Hf a ch1) as (ws' & k' & Hw' & Hp' & Hk').
  exists (ws ++ ws')%list, (k + k')%nat.
  rewrite Hw', Hw, Hp', Hp, drop_drop, app_assoc, length_app.
  split; [reflexivity|]. split; [f_equal; lia | lia].
Qed.

Lemma disciplined_raise_if_not (b : bool) (e : exn) :
  disciplined (raise_if_not b e).
Proof. apply disciplined_pure. destruct b; reflexivity. Qed.

Lemma disciplined_int_ (s : string) : disciplined (int_ s).
Proof.
  apply disciplined_pure. intros ch. unfold int_.
  destruct (Py.int_of_str s); reflexivity.
Qed.

Lemma disciplined_last_ (s : string) : disciplined (last_ s).
Proof.
  apply disciplined_pure. intros ch. unfold last_.
  destruct (Py.last_char s); reflexivity.
Qed.

Lemma disciplined_for_each {A B : Type} (f : A -> M B) (l : list A) :
  (forall a, disciplined (f a)) -> disciplined (for_each f l).
Proof.
  intros Hf. induction l as [|x l IH]; cbn [for_each].
  - apply disciplined_ret.
  - apply disciplined_bind; [apply Hf|]. intros y.
    apply disciplined_bind; [exact IH|]. intros ys. apply disciplined_ret.
Qed.

Lemma disciplined_while_not (fuel : nat) (cond : M bool) :
  disciplined cond -> disciplined (while_not fuel cond).
Proof.
  intros Hc. induction fuel as [|fuel IH]; cbn [while_not].
  - apply disciplined_spin.
  - apply disciplined_bind; [exact Hc|]. intros [|];
      [apply disciplined_ret | exact IH].
Qed.

Lemma disciplined_discard {A : Type} (m : M A) :
  disciplined m -> disciplined (discard m).
Proof.
  intros H. apply disciplined_bind; [exact H|]. intros _.
  apply disciplined_ret.
Qed.

Section Discipline.
Variable COMMANDS : gmap string string.
Import Controller.

Lemma disciplined_command (key : string) : disciplined (command COMMANDS key).
Proof.
  apply disciplined_pure. intros ch. unfold command.
  destruct (COMMANDS !! key); reflexivity.
Qed.

Lemma disciplined_verify_address_value (addr : value) :
  disciplined (verify_address_value addr).
Proof. apply disciplined_raise_if_not. Qed.

Lemma disciplined_verify_axis_value (axis : value) :
  disciplined (verify_axis_value axis).
Proof. apply disciplined_raise_if_not. Qed.

Lemma disciplined_format_command m addr axis val :
  disciplined (format_command COMMANDS m addr axis val).
Proof.
  apply disciplined_pure. intros ch.
  apply (format_command_pure COMMANDS m addr axis val ch ch).
Qed.

(** One write, and with [get_reply] at most one read after it. *)
Lemma disciplined_send_command (cmd : string) (get_reply : bool) :
  disciplined (send_command cmd get_reply).
Proof.
  intros ch. unfold send_command, ep_out_write, ep_in_read.
  rewrite bind_run. cbn [pending written].
  destruct get_reply.
  - rewrite bind_run. cbn [pending written].
    destruct (pending ch) as [|r rest] eqn:Hp; cbn [snd written pending].
    + exists [cmd], 0%nat. cbn. auto.
    + exists [cmd], 1%nat. cbn. auto.
  - exists [cmd], 0%nat. cbn. auto.
Qed.

Lemma disciplined_parse_reply (reply : option (list Byte.byte)) :
  disciplined (parse_reply reply).
Proof. apply disciplined_pure. intros ch. destruct reply; reflexivity. Qed.

End Discipline.

Create HintDb discipline.

#[local] Hint Resolve disciplined_ret disciplined_raise disciplined_spin
  disciplined_raise_if_not disciplined_int_ disciplined_last_
  disciplined_command disciplined_verify_address_value
  disciplined_verify_axis_value disciplined_format_command
  disciplined_send_command disciplined_parse_reply : discipline.

(** Splits a sequence of steps and closes each step from the hints. *)
Ltac discipline :=
  repeat first
    [ solve [auto with discipline]
    | apply disciplined_discard
    | apply disciplined_while_not
    | apply disciplined_for_each; intro
    | apply disciplined_bind; [|intro]
    | match goal with
      | |- disciplined (match ?x with _ => _ end) => destruct x
      end ].

(** Whatever method is called, with whatever arguments, table and fuel,
    and however the call ends, the log of written commands has only
    grown at its end, the replies taken were the first pending ones, and
    no more replies were taken than commands written in the call. *)
Theorem invoke_disciplined
    (COMMANDS : gmap string string) (fuel : nat) (m : method) :
  disciplined (invoke COMMANDS fuel m).
Proof.
  destruct m; cbn [invoke];
    unfold Controller.get_id, Controller.get_firmware_version,
      Controller.set_velocity, Controller.get_velocity,
      Controller.set_acceleration, Controller.get_acceleration,
      Controller.get_position, Controller.set_home, Controller.get_home,
      Controller.finished_moving, Controller.move_indefinitely,
      Controller.move_to_target, Controller.get_target,
      Controller.move_relative, Controller.get_relative_target,
      Controller.detect_motors, Controller.set_motor_type,
      Controller.get_motor_type, Controller.set_address,
      Controller.get_address, Controller.scan, Controller.is_scan_done,
      Controller.get_controller_address_map, Controller.save_settings,
      Controller.stop_motion, Controller.get_latest_error_msg,
      Controller.get_latest_error_code, Controller.purge_all_settings;
    discipline.
Qed.

(** ** A mnemonic missing from the table *)

Lemma gives_up_guard {A : Type} key (b : bool) (msg : string) (k : M A) :
  gives_up key k -> gives_up key (raise_if_not b (ValueError msg);; k).
Proof.
  intros Hk ch. rewrite bind_run. destruct b.
  - rewrite raise_if_not_true. apply Hk.
  - rewrite raise_if_not_false. eauto.
Qed.

Lemma gives_up_bind {A B : Type} key (m : M A) (f : A -> M B) :
  gives_up key m -> gives_up key (m ≫= f).
Proof.
  intros Hm ch. destruct (Hm ch) as (e & He & Hk).
  exists e. rewrite (bind_raise _ _ _ _ _ He). auto.
Qed.

Lemma gives_up_command {A : Type} (COMMANDS : gmap string string) key
    (f : string -> M A) :
  COMMANDS !! key = None ->
  gives_up key (Controller.command COMMANDS key ≫= f).
Proof.
  intros Hk ch. exists (KeyError key).
  rewrite bind_run. unfold Controller.command. rewrite Hk. auto.
Qed.

(** A method whose mnemonic is missing from the table never writes: the
    call raises with the channel untouched, either [KeyError] for the
    missing key or the [ValueError] of one of the method's own argument
    checks, which come before the lookup. *)
Theorem missing_mnemonic_nothing_written
    (COMMANDS : gmap string string) (fuel : nat) (m : method) (ch : channel) :
  COMMANDS !! method_key m = None ->
  exists e : exn,
    invoke COMMANDS fuel m ch = (Raise e, ch)
    /\ (e = KeyError (method_key m) \/ exists msg, e = ValueError msg).
Proof.
  intros Hk. revert ch.
  change (gives_up (method_key m) (invoke COMMANDS fuel m)).
  destruct m; cbn [invoke method_key] in *;
    unfold discard, Controller.get_id, Controller.get_firmware_version,
      Controller.set_velocity, Controller.get_velocity,
      Controller.set_acceleration, Controller.get_acceleration,
      Controller.get_position, Controller.set_home, Controller.get_home,
      Controller.finished_moving, Controller.move_indefinitely,
      Controller.move_to_target, Controller.get_target,
      Controller.move_relative, Controller.get_relative_target,
      Controller.detect_motors, Controller.set_motor_type,
      Controller.get_motor_type, Controller.set_address,
      Controller.get_address, Controller.scan, Controller.is_scan_done,
      Controller.get_controller_address_map, Controller.save_settings,
      Controller.stop_motion, Controller.get_latest_error_msg,
      Controller.get_latest_error_code, Controller.purge_all_settings,
      Controller.verify_address_value, Controller.verify_axis_value;
    repeat first
      [ apply gives_up_guard
      | apply (gives_up_command _ _ _ Hk)
      | apply gives_up_bind ].
Qed.

Lemma missing_mnemonic_nothing_written_witness :
  exists e : exn,
    invoke sample_commands 3 M_save_settings (fresh [])
    = (Raise e, fresh [])
    /\ (e = KeyError "save" \/ exists msg, e = ValueError msg).
Proof.
  apply (missing_mnemonic_nothing_written sample_commands 3 M_save_settings
           (fresh [])).
  reflexivity.
Defined.

(** ** Replies read back *)

Lemma decode_bytes_of (s : string) : Py.decode (bytes_of s) = s.
Proof.
  unfold Py.decode, bytes_of, list_byte_of_string.
  rewrite map_map.
  rewrite (map_ext _ (fun a => a)) by apply ascii_of_byte_of_ascii.
  rewrite map_id. apply string_of_list_ascii_of_string.
Qed.

Lemma rstrip_all_space (t : string) : all_space t = true -> Py.rstrip t = "".
Proof.
  induction t as [|c t IH]; [reflexivity|]. cbn [all_space Py.rstrip].
  intros [Hc Ht]%andb_true_iff. rewrite (IH Ht), Hc. reflexivity.
Qed.

Lemma rstrip_app_space (s t : string) :
  all_space t = true -> Py.rstrip (s ++ t) = Py.rstrip s.
Proof.
  intros Ht. induction s as [|c s IH].
  - cbn [Py.rstrip]. apply rstrip_all_space, Ht.
  - rewrite append_cons. cbn [Py.rstrip]. rewrite IH. reflexivity.
Qed.

Lemma rstrip_last_not_space (s : string) (c : ascii) :
  Py.last_char s = Some c -> Py.isspace c = false -> Py.rstrip s = s.
Proof.
  intros Hl Hc. induction s as [|a s IH]; [reflexivity|].
  cbn [Py.rstrip]. destruct s as [|b s].
  - cbn in Hl. injection Hl as ->. cbn [Py.rstrip]. rewrite Hc. reflexivity.
  - rewrite IH by exact Hl. reflexivity.
Qed.

Lemma rstrip_length (s : string) :
  (String.length (Py.rstrip s) <= String.length s)%nat.
Proof.
  induction s as [|c s IH]; [reflexivity|]. cbn [Py.rstrip].
  destruct (Py.rstrip s) as [|b r].
  - destruct (Py.isspace c); cbn; lia.
  - cbn [String.length] in *. lia.
Qed.

(** What [rstrip] leaves does not end in a character it removes. *)
Lemma rstrip_last (s : string) (c : ascii) :
  Py.last_char (Py.rstrip s) = Some c -> Py.isspace c = false.
Proof.
  induction s as [|a s IH]; [discriminate|]. cbn [Py.rstrip].
  destruct (Py.rstrip s) as [|b r] eqn:Hr.
  - destruct (Py.isspace a) eqn:Ha; [discriminate|].
    cbn. intros [= <-]. exact Ha.
  - intros H. apply IH. exact H.
Qed.

Lemma slice_from_last (n : nat) (s : string) (c : ascii) :
  Py.last_char (Py.slice_from n s) = Some c -> Py.last_char s = Some c.
Proof.
  revert s. induction n as [|n IH]; intros [|a s] H; cbn in H;
    try discriminate; try exact H.
  apply IH in H. cbn [Py.last_char]. destruct s; [discriminate H | exact H].
Qed.

(** The cleaned text of a reply never ends in a blank or a line
    terminator. *)
Theorem cleaned_ends_in_no_space (reply : list Byte.byte) (c : ascii) :
  Py.last_char (cleaned reply) = Some c -> Py.isspace c = false.
Proof.
  unfold cleaned. intros H. apply slice_from_last in H.
  apply rstrip_last in H. exact H.
Qed.

Lemma cleaned_ends_in_no_space_witness :
  Py.isspace "1"%char = false.
Proof.
  apply (cleaned_ends_in_no_space (bytes_of ("1>0 1 " ++ CR ++ LF)) "1"%char).
  reflexivity.
Defined.

(** The parser gives back the payload of a reply: after any two
    characters of echo, a payload that does not end in a blank, followed
    by any run of blanks and line terminators, is returned as it is. *)
Theorem parse_reply_payload
    (a b : ascii) (payload terminator : string) (ch : channel) :
  payload = ""
  \/ (exists c, Py.last_char payload = Some c /\ Py.isspace c = false) ->
  all_space terminator = true ->
  Controller.parse_reply
    (Some (bytes_of (String a (String b (payload ++ terminator))))) ch
  = (Ok payload, ch).
Proof.
  intros Hp Ht. rewrite parse_reply_run. unfold cleaned.
  rewrite decode_bytes_of. f_equal. f_equal.
  destruct Hp as [-> | (c & Hl & Hc)].
  - apply slice_from_short.
    change (String a (String b ("" ++ terminator)))
      with (String a (String b "") ++ terminator).
    rewrite rstrip_app_space by exact Ht.
    pose proof (rstrip_length (String a (String b ""))) as H.
    cbn [String.length] in H. exact H.
  - change (String a (String b (payload ++ terminator)))
      with (String a (String b payload) ++ terminator).
    rewrite rstrip_app_space by exact Ht.
    rewrite (rstrip_last_not_space _ c); [reflexivity | | exact Hc].
    cbn [Py.last_char]. destruct payload; [discriminate Hl | exact Hl].
Qed.

Lemma parse_reply_payload_witness :
  Controller.parse_reply
    (Some (bytes_of (String "2" (String ">" ("8742 Version 2.2" ++ CR ++ LF)))))
    (fresh [])
  = (Ok "8742 Version 2.2", fresh []).
Proof.
  apply (parse_reply_payload "2" ">" "8742 Version 2.2" (CR ++ LF) (fresh []));
    [right; exists "2"%char; split; reflexivity | reflexivity].
Defined.

(** *** Decimal numerals *)

Lemma scan_digits_acc (d : Decimal.uint) (acc : positive) :
  Py.scan_digits (NilEmpty.string_of_uint d) (Zpos acc) false
  = Some (Zpos (Pos.of_uint_acc d acc), "").
Proof.
  revert acc. induction d; intros acc;
    cbn [NilEmpty.string_of_uint Pos.of_uint_acc]; [reflexivity | ..];
    cbn [Py.scan_digits];
    match goal with
    | |- context [Py.digit_val ?c] =>
        let v := eval vm_compute in (Py.digit_val c) in
        change (Py.digit_val c) with v; cbv iota
    end;
    rewrite <- IHd; f_equal; lia.
Qed.

Lemma scan_digits_zero (d : Decimal.uint) :
  Py.scan_digits (NilEmpty.string_of_uint d) 0 false
  = Some (Z.of_N (Pos.of_uint d), "").
Proof.
  induction d; cbn [NilEmpty.string_of_uint Pos.of_uint]; [reflexivity | ..];
    cbn [Py.scan_digits];
    match goal with
    | |- context [Py.digit_val ?c] =>
        let v := eval vm_compute in (Py.digit_val c) in
        change (Py.digit_val c) with v; cbv iota
    end;
    [exact IHd | ..];
    cbn [Z.of_N]; rewrite <- scan_digits_acc; reflexivity.
Qed.

Lemma int_magnitude_decimal (d : Decimal.uint) :
  d <> Decimal.Nil ->
  Py.int_magnitude (NilEmpty.string_of_uint d) = Some (Z.of_N (Pos.of_uint d)).
Proof.
  intros Hd. pose proof (scan_digits_zero d) as H.
  destruct d; [congruence | ..]; unfold Py.int_magnitude;
    cbn [NilEmpty.string_of_uint] in H |- *;
    match goal with
    | |- context [Py.digit_val ?c] =>
        let v := eval vm_compute in (Py.digit_val c) in
        change (Py.digit_val c) with v; cbv iota
    end;
    rewrite H; reflexivity.
Qed.

Lemma int_of_str_decimal (d : Decimal.uint) :
  d <> Decimal.Nil ->
  Py.int_of_str (NilEmpty.string_of_uint d) = Some (Z.of_N (Pos.of_uint d)).
Proof.
  intros Hd. rewrite <- (int_magnitude_decimal d Hd).
  destruct d; [congruence | ..]; reflexivity.
Qed.

(** [int(str(n)) == n] for every integer. *)
Lemma int_of_str_str_int (n : Z) : Py.int_of_str (Py.str_int n) = Some n.
Proof.
  destruct n as [|p|p]; [reflexivity | |]; unfold Py.str_int;
    cbn [Z.to_int NilZero.string_of_int];
    pose proof (DecimalPos.Unsigned.to_uint_nonnil p) as Hd;
    pose proof (DecimalPos.Unsigned.of_to p) as Hp.
  - unfold NilZero.string_of_uint.
    destruct (Pos.to_uint p) eqn:E; [congruence | ..];
      rewrite (int_of_str_decimal _ Hd), Hp; reflexivity.
  - unfold NilZero.string_of_uint.
    destruct (Pos.to_uint p) eqn:E; [congruence | ..];
      (change (Py.int_of_str (String "-" ?s))
         with (Z.opp <$> Py.int_magnitude s));
      rewrite (int_magnitude_decimal _ Hd), Hp; reflexivity.
Qed.

(** ** Queries *)

Lemma no_space_uint (d : Decimal.uint) :
  no_space (NilEmpty.string_of_uint d) = true.
Proof. induction d; cbn [NilEmpty.string_of_uint no_space]; auto. Qed.

Lemma no_space_str_int (n : Z) :
  no_space (Py.str_int n) = true /\ Py.str_int n <> "".
Proof.
  destruct n as [|p|p]; [split; [reflexivity | discriminate] | |];
    unfold Py.str_int; cbn [Z.to_int NilZero.string_of_int];
    pose proof (DecimalPos.Unsigned.to_uint_nonnil p) as Hd;
    pose proof (no_space_uint (Pos.to_uint p)) as Hs;
    unfold NilZero.string_of_uint.
  - destruct (Pos.to_uint p); [congruence | ..];
      (split; [exact Hs | discriminate]).
  - destruct (Pos.to_uint p); [congruence | ..];
      (split; [exact Hs | discriminate]).
Qed.

Lemma no_space_last (s : string) :
  no_space s = true -> s <> "" ->
  exists c, Py.last_char s = Some c /\ Py.isspace c = false.
Proof.
  induction s as [|a s IH]; [congruence|]. cbn [no_space].
  intros [Ha Hs]%andb_true_iff _. destruct s as [|b s].
  - exists a. split; [reflexivity | apply negb_true_iff, Ha].
  - destruct (IH Hs) as (c & Hl & Hc); [discriminate|]. exists c. auto.
Qed.

(** The cleaned text of an echo, a decimal numeral and terminators. *)
Lemma cleaned_decimal (n : Z) (a b : ascii) (terminator : string) :
  all_space terminator = true ->
  cleaned (bytes_of (String a (String b (Py.str_int n ++ terminator))))
  = Py.str_int n.
Proof.
  intros Ht. unfold cleaned. rewrite decode_bytes_of.
  change (String a (String b (Py.str_int n ++ terminator)))
    with (String a (String b (Py.str_int n)) ++ terminator).
  rewrite rstrip_app_space by exact Ht.
  destruct (no_space_str_int n) as [Hs Hne].
  destruct (no_space_last _ Hs Hne) as (c & Hl & Hc).
  rewrite (rstrip_last_not_space _ c); [reflexivity | | exact Hc].
  cbn [Py.last_char]. destruct (Py.str_int n); [congruence | exact Hl].
Qed.

Section Queries.
Variable COMMANDS : gmap string string.
Import Controller.

(** The two checks at the head of an operation, when both pass. *)
Lemma verify_both_pass {A : Type} (addr axis : value) (k : M A) ch :
  valid_address addr = true ->
  valid_axis axis = true ->
  (verify_address_value addr;; verify_axis_value axis;; k) ch = k ch.
Proof.
  intros Ha Hx.
  rewrite bind_run, verify_address_value_run, Ha.
  rewrite bind_run, verify_axis_value_run, Hx. reflexivity.
Qed.

Lemma verify_address_pass {A : Type} (addr : value) (k : M A) ch :
  valid_address addr = true ->
  (verify_address_value addr;; k) ch = k ch.
Proof.
  intros Ha. rewrite bind_run, verify_address_value_run, Ha. reflexivity.
Qed.

(** The common tail of the integer queries. *)
Lemma int_query_tail key m addr axis ch r rest :
  COMMANDS !! key = Some m ->
  valid_address addr = true ->
  valid_axis axis = true \/ Py.truthy axis = false ->
  pending ch = r :: rest ->
  (cmd ← (m ← command COMMANDS key;
          format_command COMMANDS m addr axis VNone);
   reply ← (r ← send_command cmd true; parse_reply r);
   int_ reply) ch
  = (int_answer r, exchanged (wire m addr axis VNone) ch).
Proof.
  intros Hk Ha Hx Hp.
  rewrite (bind_ok _ _ _ _ _ (lookup_format_ok _ _ _ _ _ _ _ Hk Ha Hx)).
  rewrite (bind_ok _ _ _ _ _ (send_and_parse _ _ _ _ Hp)).
  unfold int_, int_answer. destruct (Py.int_of_str (cleaned r)); reflexivity.
Qed.

(** The common tail of the queries that return the text. *)
Lemma str_query_tail key m addr axis ch r rest :
  COMMANDS !! key = Some m ->
  valid_address addr = true ->
  valid_axis axis = true \/ Py.truthy axis = false ->
  pending ch = r :: rest ->
  (cmd ← (m ← command COMMANDS key;
          format_command COMMANDS m addr axis VNone);
   reply ← (r ← send_command cmd true; parse_reply r);
   mret reply) ch
  = (Ok (cleaned r), exchanged (wire m addr axis VNone) ch).
Proof.
  intros Hk Ha Hx Hp.
  rewrite (bind_ok _ _ _ _ _ (lookup_format_ok _ _ _ _ _ _ _ Hk Ha Hx)).
  rewrite (bind_ok _ _ _ _ _ (send_and_parse _ _ _ _ Hp)).
  reflexivity.
Qed.

(** The five queries with an integer result, on a valid address and
    axis with a reply waiting: the command "{addr}>{axis}{mnemonic}\r"
    ([get_address]: without the axis) is written, one reply is taken,
    and the result is [int] of its cleaned text; when that text is not
    an integer literal the call raises [ValueError], with the command
    written and the reply taken all the same. *)
Theorem integer_queries
    (addr axis : value) (ch : channel)
    (r : list Byte.byte) (rest : list (list Byte.byte)) :
  valid_address addr = true ->
  valid_axis axis = true ->
  pending ch = r :: rest ->
  (forall m, COMMANDS !! "query_velocity" = Some m ->
     get_velocity COMMANDS addr axis ch
     = (int_answer r, exchanged (wire m addr axis VNone) ch))
  /\ (forall m, COMMANDS !! "query_accel" = Some m ->
     get_acceleration COMMANDS addr axis ch
     = (int_answer r, exchanged (wire m addr axis VNone) ch))
  /\ (forall m, COMMANDS !! "query_pos" = Some m ->
     get_position COMMANDS addr axis ch
     = (int_answer r, exchanged (wire m addr axis VNone) ch))
  /\ (forall m, COMMANDS !! "query_target_pos" = Some m ->
     get_target COMMANDS addr axis ch
     = (int_answer r, exchanged (wire m addr axis VNone) ch))
  /\ (forall m, COMMANDS !! "query_address" = Some m ->
     get_address COMMANDS addr ch
     = (int_answer r, exchanged (wire m addr VNone VNone) ch)).
Proof.
  intros Ha Hx Hp.
  repeat split; intros m Hk;
    unfold get_velocity, get_acceleration, get_position, get_target,
      get_address;
    rewrite ?(verify_both_pass _ _ _ _ Ha Hx), ?(verify_address_pass _ _ _ Ha);
    eapply int_query_tail; eauto.
Qed.

(** The six queries with a text result return the cleaned reply as it
    is, whatever it holds: [get_home] and [get_relative_target] do not
    convert it to an integer, and [get_firmware_version] and the two
    error queries always address controller 1. *)
Theorem text_queries
    (addr axis : value) (ch : channel)
    (r : list Byte.byte) (rest : list (list Byte.byte)) :
  valid_address addr = true ->
  valid_axis axis = true ->
  pending ch = r :: rest ->
  (forall m, COMMANDS !! "id_string" = Some m ->
     get_id COMMANDS addr ch
     = (Ok (cleaned r), exchanged (wire m addr VNone VNone) ch))
  /\ (forall m, COMMANDS !! "query_firmware" = Some m ->
     get_firmware_version COMMANDS ch
     = (Ok (cleaned r), exchanged ("1>" ++ m ++ CR) ch))
  /\ (forall m, COMMANDS !! "query_home" = Some m ->
     get_home COMMANDS addr axis ch
     = (Ok (cleaned r), exchanged (wire m addr axis VNone) ch))
  /\ (forall m, COMMANDS !! "query_target_rel" = Some m ->
     get_relative_target COMMANDS addr axis ch
     = (Ok (cleaned r), exchanged (wire m addr axis VNone) ch))
  /\ (forall m, COMMANDS !! "query_error_msg" = Some m ->
     get_latest_error_msg COMMANDS ch
     = (Ok (cleaned r), exchanged ("1>" ++ m ++ CR) ch))
  /\ (forall m, COMMANDS !! "query_error_nr" = Some m ->
     get_latest_error_code COMMANDS ch
     = (Ok (cleaned r), exchanged ("1>" ++ m ++ CR) ch)).
Proof.
  intros Ha Hx Hp.
  repeat split; intros m Hk;
    unfold get_id, get_firmware_version, get_home, get_relative_target,
      get_latest_error_msg, get_latest_error_code.
  - eapply str_query_tail; eauto.
  - eapply (str_query_tail _ m (VInt 1) VNone); eauto.
  - eapply str_query_tail; eauto.
  - eapply str_query_tail; eauto.
  - eapply (str_query_tail _ m (VInt 1) VNone); eauto.
  - eapply (str_query_tail _ m (VInt 1) VNone); eauto.
Qed.

(** A decimal reply is read back exactly: when the controller answers
    with two characters of echo, the decimal numeral of [n] (negative or
    not) and any run of terminators, [get_position] returns [n]. *)
Theorem get_position_reads_decimal
    (m : string) (addr axis : value) (ch : channel) (n : Z)
    (a b : ascii) (terminator : string) (rest : list (list Byte.byte)) :
  COMMANDS !! "query_pos" = Some m ->
  valid_address addr = true ->
  valid_axis axis = true ->
  all_space terminator = true ->
  pending ch
  = bytes_of (String a (String b (Py.str_int n ++ terminator))) :: rest ->
  get_position COMMANDS addr axis ch
  = (Ok n, exchanged (wire m addr axis VNone) ch).
Proof.
  intros Hk Ha Hx Ht Hp. unfold get_position.
  rewrite (verify_both_pass _ _ _ _ Ha Hx).
  rewrite (int_query_tail _ _ _ _ _ _ _ Hk Ha (or_introl Hx) Hp).
  f_equal. unfold int_answer.
  rewrite (cleaned_decimal n a b terminator Ht), int_of_str_str_int.
  reflexivity.
Qed.

End Queries.

Lemma integer_queries_witness :
  Controller.get_address sample_commands (VInt 2) (fresh ["2>2" ++ CR ++ LF])
  = (Ok 2, Channel ["2>SA?" ++ CR] []).
Proof.
  refine (proj2 (proj2 (proj2 (proj2
            (integer_queries sample_commands (VInt 2) (VInt 1)
               (fresh ["2>2" ++ CR ++ LF]) (bytes_of ("2>2" ++ CR ++ LF)) []
               _ _ _)))) "SA?" _);
    reflexivity.
Defined.

Lemma text_queries_witness :
  Controller.get_firmware_version sample_commands
    (fresh ["1>8742 Version 2.2 08/01/13" ++ CR ++ LF])
  = (Ok "8742 Version 2.2 08/01/13", Channel ["1>VE?" ++ CR] []).
Proof.
  refine (proj1 (proj2
            (text_queries sample_commands (VInt 1) (VInt 1)
               (fresh ["1>8742 Version 2.2 08/01/13" ++ CR ++ LF])
               (bytes_of ("1>8742 Version 2.2 08/01/13" ++ CR ++ LF)) []
               _ _ _)) "VE?" _);
    reflexivity.
Defined.

Lemma get_position_reads_decimal_witness :
  let reply := bytes_of (String "1" (String ">" (Py.str_int (-1250) ++ CR ++ LF))) in
  Controller.get_position position_commands (VInt 1) (VInt 3)
    (Channel [] [reply])
  = (Ok (-1250), Channel ["1>3TP?" ++ CR] []).
Proof.
  intros reply.
  apply (get_position_reads_decimal position_commands "TP?" (VInt 1) (VInt 3)
           (Channel [] [reply]) (-1250) "1" ">" (CR ++ LF) []);
    reflexivity.
Defined.

(** ** Commands without a reply *)

Section Setters.
Variable COMMANDS : gmap string string.
Import Controller.

(** The common tail of the operations that only send. *)
Lemma send_tail key m addr axis val ch :
  COMMANDS !! key = Some m ->
  valid_address addr = true ->
  valid_axis axis = true \/ Py.truthy axis = false ->
  (cmd ← (m ← command COMMANDS key;
          format_command COMMANDS m addr axis val);
   send_command cmd false;; mret tt) ch
  = (Ok tt, sent (wire m addr axis val) ch).
Proof.
  intros Hk Ha Hx.
  rewrite (bind_ok _ _ _ _ _ (lookup_format_ok _ _ _ _ _ val _ Hk Ha Hx)).
  reflexivity.
Qed.

Lemma int_guard (val : value) (p : Z -> bool) :
  Py.type_is_int val && Py.int_test val p
  = match val with VInt v => p v | _ => false end.
Proof. destruct val; reflexivity. Qed.

Lemma eq_str_spec (val : value) (s : string) :
  Py.eq_str val s = true <-> val = VStr s.
Proof.
  destruct val as [| b | z | t]; cbn; try (split; [discriminate | congruence]).
  rewrite String.eqb_eq. split; congruence.
Qed.

(** Turns a boolean range test into inequalities. *)
Ltac bounds H :=
  rewrite ?andb_true_iff, ?andb_false_iff, ?Z.leb_le, ?Z.ltb_lt, ?Z.leb_gt,
    ?Z.ltb_ge in H.

(** On a valid address and axis each of [set_velocity],
    [set_acceleration], [set_motor_type], [set_home] and
    [move_indefinitely] either writes the one command
    "{addr}>{axis}{mnemonic}{value}\r" and reads nothing, when the value
    is in the operation's domain, or raises its [ValueError] with
    nothing written.  The domains: an [int] in [1, 2000]; an [int] in
    (0, 200000]; an [int] in [0, 3]; any [int]; the text "+" or "-". *)
Theorem setters_check_then_send
    (s : setter) (m : string) (addr axis val : value) (ch : channel) :
  COMMANDS !! setter_key s = Some m ->
  valid_address addr = true ->
  valid_axis axis = true ->
  (setter_domain s val ->
     setter_run COMMANDS s addr axis val ch
     = (Ok tt, sent (wire m addr axis val) ch))
  /\ (~ setter_domain s val ->
     setter_run COMMANDS s addr axis val ch
     = (Raise (ValueError (setter_message s)), ch)).
Proof.
  intros Hk Ha Hx.
  destruct s; cbn [setter_run setter_key setter_domain setter_message] in *;
    unfold set_velocity, set_acceleration, set_motor_type, set_home,
      move_indefinitely.
  5: { rewrite !(bind_run (raise_if_not _ _)).
       destruct (Py.eq_str val "+" || Py.eq_str val "-") eqn:Hd.
       - rewrite raise_if_not_true, (verify_both_pass _ _ _ _ Ha Hx).
         rewrite (send_tail _ _ _ _ val _ Hk Ha (or_introl Hx)).
         split; [reflexivity|]. intros Hn. exfalso. apply Hn.
         apply orb_true_iff in Hd. rewrite !eq_str_spec in Hd. exact Hd.
       - rewrite raise_if_not_false. split; [|reflexivity].
         rewrite <- !eq_str_spec, <- orb_true_iff, Hd. discriminate. }
  all: rewrite !(verify_both_pass _ _ _ _ Ha Hx);
    rewrite !(bind_run (raise_if_not _ _));
    try rewrite int_guard;
    destruct val as [| b | v | t]; cbn [Py.type_is_int];
    try (rewrite raise_if_not_false;
         split; [intros (v' & Hv & _) || intros (v' & Hv); discriminate Hv
                | reflexivity]).
  - destruct ((1 <=? v) && (v <=? 2000)) eqn:Hr.
    + rewrite raise_if_not_true, (send_tail _ _ _ _ _ _ Hk Ha (or_introl Hx)).
      split; [reflexivity|]. intros Hn. exfalso. apply Hn. exists v.
      bounds Hr. split; [reflexivity | lia].
    + rewrite raise_if_not_false. split; [|reflexivity].
      intros (v' & [= <-] & Hv). bounds Hr. lia.
  - destruct ((0 <? v) && (v <=? 200000)) eqn:Hr.
    + rewrite raise_if_not_true, (send_tail _ _ _ _ _ _ Hk Ha (or_introl Hx)).
      split; [reflexivity|]. intros Hn. exfalso. apply Hn. exists v.
      bounds Hr. split; [reflexivity | lia].
    + rewrite raise_if_not_false. split; [|reflexivity].
      intros (v' & [= <-] & Hv). bounds Hr. lia.
  - destruct ((0 <=? v) && (v <=? 3)) eqn:Hr.
    + rewrite raise_if_not_true, (send_tail _ _ _ _ _ _ Hk Ha (or_introl Hx)).
      split; [reflexivity|]. intros Hn. exfalso. apply Hn. exists v.
      bounds Hr. split; [reflexivity | lia].
    + rewrite raise_if_not_false. split; [|reflexivity].
      intros (v' & [= <-] & Hv). bounds Hr. lia.
  - rewrite raise_if_not_true, (send_tail _ _ _ _ _ _ Hk Ha (or_introl Hx)).
    split; [reflexivity|]. intros Hn. exfalso. apply Hn. eauto.
Qed.

(** The four operations without a value check, on valid arguments,
    write their one command and read nothing; [save_settings] and
    [purge_all_settings] take no address and always address
    controller 1. *)
Theorem plain_commands_send_once (addr axis : value) (ch : channel) :
  valid_address addr = true ->
  valid_axis axis = true ->
  (forall m, COMMANDS !! "stop" = Some m ->
     stop_motion COMMANDS addr axis ch
     = (Ok tt, sent (wire m addr axis VNone) ch))
  /\ (forall m, COMMANDS !! "motor_check" = Some m ->
     detect_motors COMMANDS addr ch
     = (Ok tt, sent (wire m addr VNone VNone) ch))
  /\ (forall m, COMMANDS !! "save" = Some m ->
     save_settings COMMANDS ch = (Ok tt, sent ("1>" ++ m ++ CR) ch))
  /\ (forall m, COMMANDS !! "purge_memory" = Some m ->
     purge_all_settings COMMANDS ch = (Ok tt, sent ("1>" ++ m ++ CR) ch)).
Proof.
  intros Ha Hx.
  repeat split; intros m Hk;
    unfold stop_motion, detect_motors, save_settings, purge_all_settings;
    rewrite ?(verify_both_pass _ _ _ _ Ha Hx),
      ?(verify_address_pass _ _ _ Ha).
  - apply send_tail; auto.
  - apply send_tail; auto.
  - apply (send_tail _ m (VInt 1) VNone VNone); auto.
  - apply (send_tail _ m (VInt 1) VNone VNone); auto.
Qed.

(** A target that is not an [int] ([None], a [bool], a text) is rejected
    by both moves with nothing written, on a valid address and axis. *)
Theorem moves_reject_non_int_target
    (fuel : nat) (addr axis target : value) (ch : channel) :
  valid_address addr = true ->
  valid_axis axis = true ->
  (forall t, target <> VInt t) ->
  move_to_target COMMANDS fuel addr axis target ch
  = (Raise (ValueError "Invalid target position"), ch)
  /\ move_relative COMMANDS fuel addr axis target ch
     = (Raise (ValueError "Invalid target position"), ch).
Proof.
  intros Ha Hx Ht. unfold move_to_target, move_relative.
  rewrite !(verify_both_pass _ _ _ _ Ha Hx).
  destruct target as [| b | t | s]; try (split; reflexivity).
  destruct (Ht t eq_refl).
Qed.

End Setters.

Lemma setters_check_then_send_witness :
  Controller.set_acceleration sample_commands (VInt 2) (VInt 4) (VInt 200000)
    (fresh [])
  = (Ok tt, Channel ["2>4AC200000" ++ CR] []).
Proof.
  refine (proj1 (setters_check_then_send sample_commands S_acceleration "AC"
                   (VInt 2) (VInt 4) (VInt 200000) (fresh []) _ _ _) _);
    try reflexivity.
  exists 200000. split; [reflexivity | lia].
Defined.

Lemma plain_commands_send_once_witness :
  Controller.save_settings position_commands (fresh [])
  = (Ok tt, Channel ["1>SM" ++ CR] []).
Proof.
  refine (proj1 (proj2 (proj2
            (plain_commands_send_once position_commands (VInt 2) (VInt 1)
               (fresh []) _ _))) "SM" _);
    reflexivity.
Defined.

Lemma moves_reject_non_int_target_witness :
  Controller.move_to_target sample_commands 7 (VInt 1) (VInt 1) (VBool true)
    (fresh [])
  = (Raise (ValueError "Invalid target position"), fresh []).
Proof.
  refine (proj1 (moves_reject_non_int_target sample_commands 7
                   (VInt 1) (VInt 1) (VBool true) (fresh []) _ _ _));
    [reflexivity | reflexivity | discriminate].
Defined.

(** ** Scanning the bus *)

Section Scan.
Variable COMMANDS : gmap string string.
Import Controller.

Lemma is_scan_done_status m :
  COMMANDS !! "query_scan_status" = Some m ->
  forall ch r rest,
    pending ch = r :: rest ->
    is_scan_done COMMANDS ch
    = (match reply_status r with
       | Some b => Ok b
       | None => Raise (IndexError "string index out of range")
       end, exchanged (wire m (VInt 1) VNone VNone) ch).
Proof.
  intros Hk ch r rest Hp. rewrite (is_scan_done_run _ _ _ _ _ Hk Hp).
  unfold reply_status. destruct (Py.last_char (cleaned r)); reflexivity.
Qed.

(** [scan] rejects a mode that is not an [int] in [0, 2] with nothing
    written.  For a mode in [0, 2] it writes "1>{mnemonic}{mode}\r" once
    and then asks for the scan status until a reply says done: with
    [nd] replies that say not done before the one that does, it returns
    after [length nd + 1] status queries and leaves the later replies
    unread; before that it has not returned. *)
Theorem scan_polls_until_done
    (ms mq : string) (fuel : nat) (mode : value) (ch : channel)
    (nd : list (list Byte.byte)) (d : list Byte.byte)
    (rest : list (list Byte.byte)) :
  COMMANDS !! "scan_RS485" = Some ms ->
  COMMANDS !! "query_scan_status" = Some mq ->
  pending ch = (nd ++ d :: rest)%list ->
  Forall (fun r => reply_status r = Some false) nd ->
  reply_status d = Some true ->
  ((forall c, mode = VInt c -> ~ 0 <= c <= 2) ->
     scan COMMANDS fuel mode ch
     = (Raise (ValueError "Conflict resolution scheme must be 0, 1, or 2."),
        ch))
  /\ (forall c, mode = VInt c -> 0 <= c <= 2 ->
        ((length nd < fuel)%nat ->
           scan COMMANDS fuel mode ch
           = (Ok tt,
              Channel (written ch
                       ++ ("1>" ++ ms ++ Py.str_int c ++ CR)%string
                          :: replicate (S (length nd))
                               ("1>" ++ mq ++ CR)%string)%list
                      rest))
        /\ ((fuel <= length nd)%nat ->
              fst (scan COMMANDS fuel mode ch) = Spin)).
Proof.
  intros Hs Hq Hp Hnd Hd. split.
  - intros Hm. unfold scan. rewrite bind_run, int_guard.
    destruct mode as [| b | c | t]; try reflexivity.
    destruct ((0 <=? c) && (c <=? 2)) eqn:Hr; [|reflexivity].
    exfalso. apply (Hm c eq_refl).
    rewrite andb_true_iff, !Z.leb_le in Hr. exact Hr.
  - intros c -> Hc.
    assert (Hr : ((0 <=? c) && (c <=? 2)) = true)
      by (rewrite andb_true_iff, !Z.leb_le; exact Hc).
    assert (Hrun : forall k : M unit,
      (raise_if_not
         (Py.type_is_int (VInt c)
          && Py.int_test (VInt c) (fun v => (0 <=? v) && (v <=? 2)))
         (ValueError "Conflict resolution scheme must be 0, 1, or 2.");;
       cmd ← (m ← command COMMANDS "scan_RS485";
              format_command COMMANDS m (VInt 1) VNone (VInt c));
       send_command cmd false;; k) ch
      = k (sent (wire ms (VInt 1) VNone (VInt c)) ch)).
    { intros k. rewrite bind_run, int_guard, Hr, raise_if_not_true.
      rewrite (bind_ok _ _ ch (wire ms (VInt 1) VNone (VInt c)) ch)
        by (apply lookup_format_ok; auto).
      reflexivity. }
    pose proof (is_scan_done_status _ Hq) as Hcond.
    assert (Hp' : pending (sent (wire ms (VInt 1) VNone (VInt c)) ch)
                  = (nd ++ d :: rest)%list) by exact Hp.
    unfold scan. rewrite Hrun. split; intros Hf.
    + rewrite (while_not_done _ _ Hcond nd fuel _ d rest Hnd Hd Hp' Hf).
      unfold sent. cbn [written]. rewrite <- app_assoc. reflexivity.
    + apply (while_not_spinning _ _ Hcond nd fuel _ (d :: rest) Hnd Hp' Hf).
Qed.

End Scan.

Lemma scan_polls_until_done_witness :
  let busy := bytes_of ("1>0" ++ CR ++ LF) in
  let done := bytes_of ("1>1" ++ CR ++ LF) in
  Controller.scan sample_commands 5 (VInt 2) (Channel [] [busy; busy; done])
  = (Ok tt,
     Channel ["1>SC2" ++ CR; "1>SD?" ++ CR; "1>SD?" ++ CR; "1>SD?" ++ CR] []).
Proof.
  intros busy done.
  refine (proj1 (proj2 (scan_polls_until_done sample_commands "SC" "SD?" 5
                          (VInt 2) (Channel [] [busy; busy; done])
                          [busy; busy] done [] _ _ _ _ _)
                   2 eq_refl _) _);
    try reflexivity.
  - repeat constructor.
  - lia.
  - cbn. lia.
Defined.

(** ** Errors inside the polling loops *)

Section PollingErrors.
Variable cond : M bool.
Variable query : string.
Hypothesis cond_run : forall ch r rest,
  pending ch = r :: rest ->
  cond ch
  = (match reply_status r with
     | Some b => Ok b
     | None => Raise (IndexError "string index out of range")
     end, exchanged query ch).
Hypothesis cond_timeout : forall ch,
  pending ch = [] ->
  cond ch = (Raise (USBError "Operation timed out"), sent query ch).

(** The loop passes on the error of the status query it is at. *)
Lemma while_not_raises (nd : list (list Byte.byte)) :
  forall (fuel : nat) (ch : channel) (tl : list (list Byte.byte)),
    Forall (fun r => reply_status r = Some false) nd ->
    pending ch = (nd ++ tl)%list ->
    (length nd < fuel)%nat ->
    match tl with
    | [] =>
        while_not fuel cond ch
        = (Raise (USBError "Operation timed out"),
           Channel (written ch ++ replicate (S (length nd)) query) [])
    | e :: rest =>
        reply_status e = None ->
        while_not fuel cond ch
        = (Raise (IndexError "string index out of range"),
           Channel (written ch ++ replicate (S (length nd)) query) rest)
    end.
Proof.
  induction nd as [|r nd IH]; intros fuel ch tl Hnd Hp Hf;
    (destruct fuel as [|fuel]; [cbn in Hf; lia|]).
  - destruct tl as [|e rest].
    + cbn [while_not]. rewrite bind_run, (cond_timeout _ Hp).
      unfold sent. rewrite Hp. reflexivity.
    + intros He. cbn [while_not].
      rewrite bind_run, (cond_run _ _ _ Hp), He, (exchanged_cons _ _ _ _ Hp).
      reflexivity.
  - inversion Hnd as [|? ? Hr Hnd']; subst.
    assert (Hstep : while_not (S fuel) cond ch
                    = while_not fuel cond
                        (Channel (written ch ++ [query]) (nd ++ tl)%list)).
    { cbn [while_not].
      rewrite bind_run, (cond_run _ _ _ Hp), Hr, (exchanged_cons _ _ _ _ Hp).
      reflexivity. }
    rewrite Hstep.
    specialize (IH fuel (Channel (written ch ++ [query]) (nd ++ tl)%list) tl
                  Hnd' eq_refl ltac:(cbn [length] in Hf; lia)).
    cbn [written length replicate] in IH |- *.
    rewrite <- app_assoc in IH. exact IH.
Qed.

End PollingErrors.

Section MotionErrors.
Variable COMMANDS : gmap string string.
Import Controller.

Lemma finished_moving_timeout m addr axis ch :
  COMMANDS !! "query_motion_done" = Some m ->
  valid_address addr = true ->
  valid_axis axis = true ->
  pending ch = [] ->
  finished_moving COMMANDS addr axis ch
  = (Raise (USBError "Operation timed out"),
     sent (wire m addr axis VNone) ch).
Proof.
  intros Hk Ha Hx Hp. unfold finished_moving.
  rewrite (bind_ok _ _ _ _ _
             (lookup_format_ok _ _ _ _ _ _ _ Hk Ha (or_introl Hx))).
  rewrite (bind_raise _ _ _ _ _ (send_and_parse_timeout _ _ Hp)).
  reflexivity.
Qed.

(** The head of [move_to_target], on valid arguments: one command is
    written and the loop starts. *)
Lemma move_to_target_head m addr axis t fuel ch :
  COMMANDS !! "move_to_target_pos" = Some m ->
  valid_address addr = true ->
  valid_axis axis = true ->
  move_to_target COMMANDS fuel addr axis (VInt t) ch
  = while_not fuel (finished_moving COMMANDS addr axis)
      (sent (wire m addr axis (VInt t)) ch).
Proof.
  intros Hk Ha Hx. unfold move_to_target.
  rewrite (verify_both_pass _ _ _ _ Ha Hx).
  rewrite (bind_ok _ _ ch tt ch) by reflexivity.
  rewrite (bind_ok _ _ _ _ _
             (lookup_format_ok _ _ _ _ _ _ _ Hk Ha (or_introl Hx))).
  reflexivity.
Qed.

(** The wait of [move_to_target] does not swallow errors.  After [nd]
    replies that say not done: when the next reply has an empty cleaned
    text the call raises the [IndexError] of [reply[-1]], and when no
    reply is left it raises the time-out of the read; in both cases
    after the move command and [length nd + 1] status queries. *)
Theorem move_to_target_surfaces_errors
    (mq mt : string) (fuel : nat) (addr axis : value) (target : Z)
    (ch : channel) (nd : list (list Byte.byte)) :
  COMMANDS !! "query_motion_done" = Some mq ->
  COMMANDS !! "move_to_target_pos" = Some mt ->
  valid_address addr = true ->
  valid_axis axis = true ->
  Forall (fun r => reply_status r = Some false) nd ->
  (length nd < fuel)%nat ->
  let log := (written ch
              ++ wire mt addr axis (VInt target)
                 :: replicate (S (length nd)) (wire mq addr axis VNone))%list
  in
  (pending ch = nd ->
     move_to_target COMMANDS fuel addr axis (VInt target) ch
     = (Raise (USBError "Operation timed out"), Channel log []))
  /\ (forall e rest,
        pending ch = (nd ++ e :: rest)%list ->
        cleaned e = "" ->
        move_to_target COMMANDS fuel addr axis (VInt target) ch
        = (Raise (IndexError "string index out of range"),
           Channel log rest)).
Proof.
  intros Hq Ht Ha Hx Hnd Hf log.
  pose proof (finished_moving_status _ _ _ _ Hq Ha Hx) as Hrun.
  pose proof (fun c => finished_moving_timeout _ _ _ c Hq Ha Hx) as Hto.
  rewrite !(move_to_target_head _ _ _ _ _ _ Ht Ha Hx).
  split.
  - intros Hp.
    pose proof (while_not_raises _ _ Hrun Hto nd fuel
                  (sent (wire mt addr axis (VInt target)) ch) [] Hnd) as H.
    cbn [pending sent] in H. rewrite app_nil_r in H.
    rewrite (H Hp Hf). unfold log, sent. cbn [written].
    rewrite <- app_assoc. reflexivity.
  - intros e rest Hp He.
    pose proof (while_not_raises _ _ Hrun Hto nd fuel
                  (sent (wire mt addr axis (VInt target)) ch) (e :: rest) Hnd
                  Hp Hf) as H.
    rewrite H by (unfold reply_status; rewrite He; reflexivity).
    unfold log, sent. cbn [written]. rewrite <- app_assoc. reflexivity.
Qed.

(** A reply with nothing after the echo, such as "1>\r\n", has an empty
    cleaned text; the three operations that look at [reply[-1]] then
    raise [IndexError], after the command was written and the reply
    taken. *)
Theorem last_char_queries_empty_reply
    (addr axis : value) (ch : channel)
    (r : list Byte.byte) (rest : list (list Byte.byte)) :
  valid_address addr = true ->
  valid_axis axis = true ->
  pending ch = r :: rest ->
  (String.length (Py.rstrip (Py.decode r)) <= 2)%nat ->
  (forall m, COMMANDS !! "query_motion_done" = Some m ->
     finished_moving COMMANDS addr axis ch
     = (Raise (IndexError "string index out of range"),
        exchanged (wire m addr axis VNone) ch))
  /\ (forall m, COMMANDS !! "query_scan_status" = Some m ->
     is_scan_done COMMANDS ch
     = (Raise (IndexError "string index out of range"),
        exchanged ("1>" ++ m ++ CR) ch))
  /\ (forall m, COMMANDS !! "query_motor_type" = Some m ->
     get_motor_type COMMANDS addr axis ch
     = (Raise (IndexError "string index out of range"),
        exchanged (wire m addr axis VNone) ch)).
Proof.
  intros Ha Hx Hp Hlen.
  assert (Hc : cleaned r = "") by (apply slice_from_short; exact Hlen).
  repeat split; intros m Hk.
  - rewrite (finished_moving_run _ _ _ _ _ _ _ Hk Ha (or_introl Hx) Hp), Hc.
    reflexivity.
  - rewrite (is_scan_done_run _ _ _ _ _ Hk Hp), Hc. reflexivity.
  - rewrite (get_motor_type_run _ _ _ _ _ _ _ Hk Ha (or_introl Hx) Hp), Hc.
    reflexivity.
Qed.

End MotionErrors.

Lemma move_to_target_surfaces_errors_witness :
  let busy := bytes_of ("1>0" ++ CR ++ LF) in
  Controller.move_to_target sample_commands 9 (VInt 1) (VInt 2) (VInt (-40))
    (Channel [] [busy])
  = (Raise (USBError "Operation timed out"),
     Channel ["1>2PA-40" ++ CR; "1>2MD?" ++ CR; "1>2MD?" ++ CR] []).
Proof.
  intros busy.
  refine (proj1 (move_to_target_surfaces_errors sample_commands "MD?" "PA" 9
                   (VInt 1) (VInt 2) (-40) (Channel [] [busy]) [busy]
                   _ _ _ _ _ _) _);
    first [ reflexivity | solve [repeat constructor] | cbn; lia ].
Defined.

Lemma last_char_queries_empty_reply_witness :
  Controller.finished_moving sample_commands (VInt 1) (VInt 1)
    (fresh ["1>" ++ CR ++ LF])
  = (Raise (IndexError "string index out of range"),
     Channel ["1>1MD?" ++ CR] []).
Proof.
  refine (proj1 (last_char_queries_empty_reply sample_commands
                   (VInt 1) (VInt 1) (fresh ["1>" ++ CR ++ LF])
                   (bytes_of ("1>" ++ CR ++ LF)) [] _ _ _ _) "MD?" _);
    reflexivity.
Defined.

(** ** The length of the address map *)

Lemma bits_lsb_last (p : positive) : last (bits_lsb p) = Some 1.
Proof.
  induction p as [q IH | q IH |]; cbn [bits_lsb]; [| |reflexivity];
    rewrite last_cons, IH; reflexivity.
Qed.

Lemma bits_lsb_length (p : positive) :
  exists k : nat,
    length (bits_lsb p) = S k
    /\ 2 ^ Z.of_nat k <= Zpos p < 2 ^ Z.of_nat (S k).
Proof.
  induction p as [q IH | q IH |]; cbn [bits_lsb length].
  - destruct IH as (k & -> & Hk). exists (S k). split; [reflexivity|].
    rewrite !Nat2Z.inj_succ, !Z.pow_succ_r in * by lia. lia.
  - destruct IH as (k & -> & Hk). exists (S k). split; [reflexivity|].
    rewrite !Nat2Z.inj_succ, !Z.pow_succ_r in * by lia. lia.
  - exists 0%nat. split; [reflexivity|]. cbn. lia.
Qed.

Section AddressMapLength.
Variable COMMANDS : gmap string string.
Import Controller.

Lemma get_controller_address_map_ok m ch r rest n :
  COMMANDS !! "query_RS485_addr" = Some m ->
  pending ch = r :: rest ->
  Py.int_of_str (cleaned r) = Some n ->
  0 <= n ->
  get_controller_address_map COMMANDS ch
  = (Ok (address_map_of n), exchanged ("1>" ++ m ++ CR) ch).
Proof.
  intros Hk Hp Hr Hn.
  rewrite (get_controller_address_map_run _ _ _ _ _ _ Hk Hp Hr).
  assert (Hd : forall c, for_each int_ (Py.chars (Py.format_b n)) c
                         = (Ok (rev (address_map_of n)), c)).
  { intros c. destruct n as [|p|p]; [reflexivity | | lia].
    apply for_each_int_bin_pos. }
  rewrite Hd, rev_involutive. reflexivity.
Qed.

(** The address map is as long as the bitmask has binary digits and no
    longer: for a bitmask [n > 0] its last entry is 1 and its length
    [k + 1] satisfies [2^k <= n < 2^(k+1)], so addresses above the
    highest occupied one have no entry; the bitmask 0 gives [[0]]; a
    negative one, or a reply that is no integer, raises [ValueError]. *)
Theorem get_controller_address_map_length
    (m : string) (ch : channel) (r : list Byte.byte)
    (rest : list (list Byte.byte)) :
  COMMANDS !! "query_RS485_addr" = Some m ->
  pending ch = r :: rest ->
  match Py.int_of_str (cleaned r) with
  | Some (Zpos p) =>
      exists (address_map : list Z) (k : nat),
        get_controller_address_map COMMANDS ch
        = (Ok address_map, exchanged ("1>" ++ m ++ CR) ch)
        /\ last address_map = Some 1
        /\ length address_map = S k
        /\ 2 ^ Z.of_nat k <= Zpos p < 2 ^ Z.of_nat (S k)
  | Some Z0 =>
      get_controller_address_map COMMANDS ch
      = (Ok [0], exchanged ("1>" ++ m ++ CR) ch)
  | _ =>
      get_controller_address_map COMMANDS ch
      = (Raise (ValueError "invalid literal for int() with base 10"),
         exchanged ("1>" ++ m ++ CR) ch)
  end.
Proof.
  intros Hk Hp. destruct (Py.int_of_str (cleaned r)) as [[|p|p]|] eqn:Hr.
  - apply (get_controller_address_map_ok _ _ _ _ 0 Hk Hp Hr). lia.
  - destruct (bits_lsb_length p) as (k & Hl & Hb).
    exists (bits_lsb p), k. repeat split; try lia; try exact Hl.
    + apply (get_controller_address_map_ok _ _ _ _ (Zpos p) Hk Hp Hr). lia.
    + apply bits_lsb_last.
  - apply (get_controller_address_map_negative _ _ _ _ _ _ Hk Hp Hr).
  - unfold get_controller_address_map.
    rewrite (bind_ok _ _ ch (wire m (VInt 1) VNone VNone) ch)
      by (apply lookup_format_ok; auto).
    rewrite (bind_ok _ _ _ _ _ (send_and_parse _ _ _ _ Hp)).
    unfold int_. rewrite Hr. reflexivity.
Qed.

End AddressMapLength.

Lemma get_controller_address_map_length_witness :
  exists (address_map : list Z) (k : nat),
    Controller.get_controller_address_map sample_commands
      (fresh ["1>6" ++ CR ++ LF])
    = (Ok address_map, exchanged ("1>SC?" ++ CR) (fresh ["1>6" ++ CR ++ LF]))
    /\ last address_map = Some 1
    /\ length address_map = S k
    /\ 2 ^ Z.of_nat k <= 6 < 2 ^ Z.of_nat (S k).
Proof.
  exact (get_controller_address_map_length sample_commands "SC?"
           (fresh ["1>6" ++ CR ++ LF]) (bytes_of ("1>6" ++ CR ++ LF)) []
           eq_refl eq_refl).
Defined.

(** ** The slave address of the example script *)

Lemma index_from_found (x : Z) (l : list Z) :
  forall i0 i : nat,
    (i0 <= i)%nat ->
    l !! (i - i0)%nat = Some x ->
    (forall j, (i0 <= j < i)%nat -> l !! (j - i0)%nat <> Some x) ->
    index_from x l i0 = Some i.
Proof.
  induction l as [|y l IH]; intros i0 i Hi Hl Hfirst; [discriminate Hl|].
  cbn [index_from]. destruct (Z.eqb_spec y x) as [-> | Hne].
  - f_equal. destruct (decide (i = i0)) as [-> | Hd]; [reflexivity|].
    exfalso. apply (Hfirst i0); [lia|]. rewrite Nat.sub_diag. reflexivity.
  - assert (Hlt : (i0 < i)%nat).
    { destruct (decide (i = i0)) as [-> | Hd]; [|lia].
      rewrite Nat.sub_diag in Hl. cbn in Hl. congruence. }
    apply IH; [lia | |].
    + replace (i - i0)%nat with (S (i - S i0)) in Hl by lia. exact Hl.
    + intros j Hj. specialize (Hfirst j ltac:(lia)).
      replace (j - i0)%nat with (S (j - S i0)) in Hfirst by lia. exact Hfirst.
Qed.

Lemma index_from_absent (x : Z) (l : list Z) :
  forall i0 : nat,
    (forall k, l !! k <> Some x) -> index_from x l i0 = None.
Proof.
  induction l as [|y l IH]; intros i0 H; [reflexivity|].
  cbn [index_from]. destruct (Z.eqb_spec y x) as [-> | Hne].
  - destruct (H 0%nat). reflexivity.
  - apply IH. intros k. exact (H (S k)).
Qed.

Lemma address_map_of_lookup (n : Z) (j : nat) :
  0 <= n ->
  address_map_of n !! j = Some 1 <-> Z.testbit n (Z.of_nat j) = true.
Proof.
  intros Hn. destruct (decide (j < length (address_map_of n))%nat) as [Hj | Hj].
  - rewrite (address_map_of_testbit n j Hn Hj).
    destruct (Z.testbit n (Z.of_nat j)); cbn; split; congruence.
  - rewrite (address_map_of_beyond n j Hn) by lia.
    rewrite lookup_ge_None_2 by lia. split; discriminate.
Qed.

Section ExampleScript.
Variable COMMANDS : gmap string string.
Import Controller.

(** The example script takes as slave the lowest occupied address from
    2 on: for a bitmask [n >= 0] whose lowest set bit at a position
    from 2 on is bit [i], [find_slave] returns [i]; when no such bit is
    set ([n < 4]) the search raises [ValueError].  The script then calls
    [detect_motors] on that address, which the driver rejects unless it
    is 2. *)
Theorem find_slave_lowest_occupied
    (m : string) (ch : channel) (r : list Byte.byte)
    (rest : list (list Byte.byte)) (n : Z) :
  COMMANDS !! "query_RS485_addr" = Some m ->
  pending ch = r :: rest ->
  Py.int_of_str (cleaned r) = Some n ->
  0 <= n ->
  (forall i : nat,
      (2 <= i)%nat ->
      Z.testbit n (Z.of_nat i) = true ->
      (forall j : nat, (2 <= j < i)%nat -> Z.testbit n (Z.of_nat j) = false) ->
      find_slave COMMANDS ch = (Ok i, exchanged ("1>" ++ m ++ CR) ch)
      /\ (i <> 2%nat ->
          forall ch', detect_motors COMMANDS (VInt (Z.of_nat i)) ch'
                      = (Raise (ValueError "Invalid address value"), ch')))
  /\ (n < 4 ->
      find_slave COMMANDS ch
      = (Raise (ValueError "1 is not in list"),
         exchanged ("1>" ++ m ++ CR) ch)).
Proof.
  intros Hk Hp Hr Hn. unfold find_slave.
  rewrite (bind_ok _ _ _ _ _
             (get_controller_address_map_ok _ _ _ _ _ _ Hk Hp Hr Hn)).
  unfold list_index. split.
  - intros i Hi Hbit Hfirst. split.
    + rewrite (index_from_found 1 _ 2 i Hi); [reflexivity | |].
      * rewrite lookup_drop. replace (2 + (i - 2))%nat with i by lia.
        apply address_map_of_lookup; assumption.
      * intros j Hj. rewrite lookup_drop.
        replace (2 + (j - 2))%nat with j by lia.
        rewrite address_map_of_lookup by assumption.
        rewrite (Hfirst j Hj). discriminate.
    + intros Hne ch'. unfold detect_motors.
      apply verify_address_reject. unfold valid_address, Py.eq_int.
      destruct (Z.eqb_spec (Z.of_nat i) 1), (Z.eqb_spec (Z.of_nat i) 2);
        try lia; reflexivity.
  - intros Hlt. rewrite index_from_absent; [reflexivity|].
    intros k. rewrite lookup_drop, address_map_of_lookup by assumption.
    assert (Z.testbit n (Z.of_nat (2 + k)) = false) as ->; [|discriminate].
    destruct (Z.eq_dec n 0) as [-> | Hz]; [apply Z.testbit_0_l|].
    apply Z.bits_above_log2; [lia|].
    assert (Z.log2 n < 2) by (apply Z.log2_lt_pow2; lia). lia.
Qed.

End ExampleScript.

Lemma find_slave_lowest_occupied_witness :
  find_slave sample_commands (fresh ["1>10" ++ CR ++ LF])
  = (Ok 3%nat, exchanged ("1>SC?" ++ CR) (fresh ["1>10" ++ CR ++ LF])).
Proof.
  refine (proj1 (proj1 (find_slave_lowest_occupied sample_commands "SC?"
                          (fresh ["1>10" ++ CR ++ LF])
                          (bytes_of ("1>10" ++ CR ++ LF)) [] 10 _ _ _ _)
                   3%nat _ _ _));
    try reflexivity; try lia.
  intros j Hj. assert (j = 2%nat) as -> by lia. reflexivity.
Defined.

(** ** Queries that leave the axis check to the formatter *)

Section UncheckedAxis.
Variable COMMANDS : gmap string string.
Import Controller.

Lemma wire_no_axis m addr axis :
  Py.truthy axis = false ->
  wire m addr axis VNone = Py.str addr ++ ">" ++ m ++ CR.
Proof. intros Ht. unfold wire. rewrite Ht. reflexivity. Qed.

(** [get_acceleration], [get_target], [get_home], [get_relative_target],
    [finished_moving] and [get_motor_type] do not check the axis
    themselves.  With an axis that is not truthy (0, [None], [False],
    the empty text) none of them is stopped: each writes its command
    without an axis field, "{addr}>{mnemonic}\r", and takes the reply. *)
Theorem unchecked_axis_queries_send
    (addr axis : value) (ch : channel)
    (r : list Byte.byte) (rest : list (list Byte.byte)) :
  valid_address addr = true ->
  Py.truthy axis = false ->
  pending ch = r :: rest ->
  (forall m, COMMANDS !! "query_accel" = Some m ->
     get_acceleration COMMANDS addr axis ch
     = (int_answer r, exchanged (Py.str addr ++ ">" ++ m ++ CR) ch))
  /\ (forall m, COMMANDS !! "query_target_pos" = Some m ->
     get_target COMMANDS addr axis ch
     = (int_answer r, exchanged (Py.str addr ++ ">" ++ m ++ CR) ch))
  /\ (forall m, COMMANDS !! "query_home" = Some m ->
     get_home COMMANDS addr axis ch
     = (Ok (cleaned r), exchanged (Py.str addr ++ ">" ++ m ++ CR) ch))
  /\ (forall m, COMMANDS !! "query_target_rel" = Some m ->
     get_relative_target COMMANDS addr axis ch
     = (Ok (cleaned r), exchanged (Py.str addr ++ ">" ++ m ++ CR) ch))
  /\ (forall m, COMMANDS !! "query_motion_done" = Some m ->
     snd (finished_moving COMMANDS addr axis ch)
     = exchanged (Py.str addr ++ ">" ++ m ++ CR) ch)
  /\ (forall m, COMMANDS !! "query_motor_type" = Some m ->
     snd (get_motor_type COMMANDS addr axis ch)
     = exchanged (Py.str addr ++ ">" ++ m ++ CR) ch).
Proof.
  intros Ha Ht Hp.
  repeat split; intros m Hk; rewrite <- (wire_no_axis m addr axis Ht).
  - eapply int_query_tail; eauto.
  - eapply int_query_tail; eauto.
  - eapply str_query_tail; eauto.
  - eapply str_query_tail; eauto.
  - rewrite (finished_moving_run _ _ _ _ _ _ _ Hk Ha (or_intror Ht) Hp).
    reflexivity.
  - rewrite (get_motor_type_run _ _ _ _ _ _ _ Hk Ha (or_intror Ht) Hp).
    reflexivity.
Qed.

End UncheckedAxis.

Lemma unchecked_axis_queries_send_witness :
  Controller.get_acceleration sample_commands (VInt 1) (VInt 0)
    (fresh ["1>100000" ++ CR ++ LF])
  = (Ok 100000, Channel ["1>AC?" ++ CR] []).
Proof.
  refine (proj1 (unchecked_axis_queries_send sample_commands (VInt 1) (VInt 0)
                   (fresh ["1>100000" ++ CR ++ LF])
                   (bytes_of ("1>100000" ++ CR ++ LF)) [] _ _ _) "AC?" _);
    reflexivity.
Defined.

(** ** An axis outside its domain that is not rejected *)

Section AxisZero.
Variable COMMANDS : gmap string string.
Import Controller.

(** C3 at the input where the code departs from it.  The axis 0 lies
    outside [1, 4], and [get_velocity], which checks the axis itself,
    rejects it with "Invalid axis value" and nothing written.
    [get_acceleration], documented with the same axis range, leaves
    the check to the formatter, whose [if axis:] skips it for 0: the
    call does not fail on the axis, writes "1>{mnemonic}\r" and takes
    the reply. *)
Theorem get_acceleration_axis_zero_sent
    (ma : string) (ch : channel)
    (r : list Byte.byte) (rest : list (list Byte.byte)) :
  COMMANDS !! "query_accel" = Some ma ->
  pending ch = r :: rest ->
  valid_axis (VInt 0) = false
  /\ get_acceleration COMMANDS (VInt 1) (VInt 0) ch
     = (int_answer r,
        Channel (written ch ++ [("1>" ++ ma ++ CR)%string]) rest)
  /\ get_velocity COMMANDS (VInt 1) (VInt 0) ch
     = (Raise (ValueError "Invalid axis value"), ch).
Proof.
  intros Ha Hp. split; [reflexivity|]. split.
  - unfold get_acceleration.
    rewrite (int_query_tail _ _ _ (VInt 1) (VInt 0) _ _ _ Ha eq_refl
               (or_intror eq_refl) Hp).
    rewrite (exchanged_cons _ _ _ _ Hp). reflexivity.
  - unfold get_velocity.
    apply (verify_both_reject (VInt 1) (VInt 0)). reflexivity.
Qed.

End AxisZero.

Lemma get_acceleration_axis_zero_sent_witness :
  Controller.get_acceleration sample_commands (VInt 1) (VInt 0)
    (fresh ["1>2000" ++ CR ++ LF])
  = (Ok 2000, Channel ["1>AC?" ++ CR] [])
  /\ Controller.get_velocity sample_commands (VInt 1) (VInt 0)
       (fresh ["1>2000" ++ CR ++ LF])
     = (Raise (ValueError "Invalid axis value"),
        fresh ["1>2000" ++ CR ++ LF]).
Proof.
  exact (proj2 (get_acceleration_axis_zero_sent sample_commands "AC?"
                  (fresh ["1>2000" ++ CR ++ LF])
                  (bytes_of ("1>2000" ++ CR ++ LF)) []
                  eq_refl eq_refl)).
Defined.
